(** * Thread storage accessor of include/asterisk/threadstorage.h

    A shallow embedding of the thread-local storage helpers of Asterisk:
    the descriptor [struct ast_threadstorage], the declaration macros
    [AST_THREADSTORAGE] and [AST_THREADSTORAGE_CUSTOM], and the accessor
    [ast_threadstorage_get] in its plain and in its [DEBUG_THREADLOCALS]
    form.  The C code is a sequence of calls into the pthread runtime, the
    allocator and the debug registry; it is modelled as a state monad over
    an explicit [world], and every external call leaves an [event] in a
    log so that statements about what a call does, and in which order, can
    be written down. *)

From stdpp Require Import gmap strings list fin_maps.
From Stdlib Require Import ZArith NArith.
From Stdlib.Strings Require Import Byte.

Local Open Scope Z_scope.

(** ** Data model *)

(** [void *]: an address; [NULL] is 0. *)
Definition ptr : Type := Z.
Definition NULL : ptr := 0.

(** [pthread_t], [pthread_key_t] (an unsigned int) and [size_t]. *)
Definition pthread_t : Type := nat.
Definition pthread_key_t : Type := N.
Definition size_t : Type := N.

Definition EINVAL : Z := 22.

(** The heap: the live blocks, by address. *)
Abbreviation heap_t := (gmap Z (list byte)).

(** [int (*)(void *)], the type of a custom initializer: it gets the
    block's address, may write to the heap, and answers 0 for success. *)
Abbreviation init_fn := (ptr -> heap_t -> heap_t * Z).

(** [void (*)(void *)], the type of a consumer's cleanup function. *)
Abbreviation cleanup_fn := (ptr -> heap_t -> heap_t).

(** One entry of the debug registry: the size and the call site of a
    thread-local allocation.  The entry's key is the index of the table. *)
Record tls_object := TlsObject {
  to_len : size_t;
  to_file : string;
  to_function : string;
  to_line : N
}.

(** The calls the code makes to its collaborators, as they are logged. *)
Inductive event :=
| Ev_key_create (key : ptr) (rc : Z)
| Ev_calloc (nmemb size : size_t) (result : ptr)
| Ev_custom_init (buf : ptr) (rc : Z)
| Ev_free (buf : ptr)
| Ev_setspecific (self : pthread_t) (k : pthread_key_t) (value : ptr) (rc : Z)
| Ev_object_add (key : ptr) (len : size_t) (file function : string) (line : N)
| Ev_object_remove (key : ptr)
| Ev_registry_error (key : ptr)
| Ev_cleanup (data : ptr).

(** The part of the process a key destructor can reach: the heap (live
    blocks by address), the answers the allocator is going to give, the
    debug registry and the log. *)
Record mem := Mem {
  heap : heap_t;
  calloc_answers : list ptr;
  tls_objects : gmap Z tls_object;
  trace : list event
}.

(** A key of the pthread runtime: its destructor and the value each thread
    has stored under it (no binding: NULL). *)
Record pthread_key_slot := KeySlot {
  destructor : ptr -> mem -> mem;
  values : gmap pthread_t ptr
}.

(** The whole process.  [once_controls] and [key_vars] are the static
    storage holding the [once] and [key] members of the descriptors, by
    address; a missing binding is the static initial value
    ([PTHREAD_ONCE_INIT], resp. 0).  [key_create_answers] and
    [setspecific_answers] are the return codes the pthread runtime is going
    to give (none left: success). *)
Record world := World {
  memory : mem;
  key_table : gmap pthread_key_t pthread_key_slot;
  next_key : pthread_key_t;
  key_create_answers : list Z;
  setspecific_answers : list Z;
  once_controls : gmap ptr bool;
  key_vars : gmap ptr pthread_key_t
}.

(** [struct ast_threadstorage].  [once] and [key] are written at run time,
    so the record holds their addresses ([&ts->once], [&ts->key]) and the
    values live in the [world]; [key_init] and [custom_init] are set by the
    initializer and never change.  A NULL [custom_init] is [None]; the
    initializer gets the block's address and may write to the heap. *)
Record ast_threadstorage := Threadstorage {
  once : ptr;
  key : ptr;
  key_init : world -> unit * world;
  custom_init : option init_fn
}.

(** ** The state monad of the process *)

Definition M (A : Type) : Type := world -> A * world.

#[global] Instance M_ret : MRet M := λ A a w, (a, w).
#[global] Instance M_bind : MBind M :=
  λ A B f m w, let '(a, w') := m w in f a w'.

Definition with_memory (f : mem -> mem) (w : world) : world :=
  World (f (memory w)) (key_table w) (next_key w) (key_create_answers w)
        (setspecific_answers w) (once_controls w) (key_vars w).

(** A call that only works on the memory. *)
Definition in_memory (f : mem -> mem) : M unit :=
  λ w, (tt, with_memory f w).

Definition log (e : event) (m : mem) : mem :=
  Mem (heap m) (calloc_answers m) (tls_objects m) (trace m ++ [e]).

Definition with_heap (f : heap_t -> heap_t) (m : mem) : mem :=
  Mem (f (heap m)) (calloc_answers m) (tls_objects m) (trace m).

Definition with_tls_objects (f : gmap Z tls_object -> gmap Z tls_object) (m : mem) : mem :=
  Mem (heap m) (calloc_answers m) (f (tls_objects m)) (trace m).

(** ** The pthread runtime *)

(** [pthread_once]: the first call on a control runs the routine and marks
    the control done; later calls do nothing. *)
Definition pthread_once (once_control : ptr) (init_routine : M unit) : M Z :=
  λ w, if default false (once_controls w !! once_control) then (0, w)
       else let '(_, w1) := init_routine w in
            (0, World (memory w1) (key_table w1) (next_key w1)
                      (key_create_answers w1) (setspecific_answers w1)
                      (<[once_control := true]> (once_controls w1)) (key_vars w1)).

(** [pthread_key_create]: on success a new key, NULL in every thread, is
    stored at [*key] and the destructor is attached to it; on failure
    [*key] is not written. *)
Definition pthread_key_create (key : ptr) (dtor : ptr -> mem -> mem) : M Z :=
  λ w, let rc := hd 0 (key_create_answers w) in
       if rc =? 0 then
         let k := next_key w in
         (0, World (log (Ev_key_create key 0) (memory w))
                   (<[k := KeySlot dtor ∅]> (key_table w)) (N.succ k)
                   (tl (key_create_answers w)) (setspecific_answers w)
                   (once_controls w) (<[key := k]> (key_vars w)))
       else
         (rc, World (log (Ev_key_create key rc) (memory w))
                    (key_table w) (next_key w)
                    (tl (key_create_answers w)) (setspecific_answers w)
                    (once_controls w) (key_vars w)).

Definition pthread_getspecific (self : pthread_t) (k : pthread_key_t) : M ptr :=
  λ w, (match key_table w !! k with
        | Some s => default NULL (values s !! self)
        | None => NULL
        end, w).

(** [pthread_setspecific]: fails, leaving the binding as it was, when the
    runtime says so or when the key does not exist. *)
Definition pthread_setspecific (self : pthread_t) (k : pthread_key_t) (value : ptr) : M Z :=
  λ w, let rc := hd 0 (setspecific_answers w) in
       let rest := tl (setspecific_answers w) in
       if rc =? 0 then
         match key_table w !! k with
         | Some s =>
             (0, World (log (Ev_setspecific self k value 0) (memory w))
                       (<[k := KeySlot (destructor s) (<[self := value]> (values s))]> (key_table w))
                       (next_key w) (key_create_answers w) rest
                       (once_controls w) (key_vars w))
         | None =>
             (EINVAL, World (log (Ev_setspecific self k value EINVAL) (memory w))
                            (key_table w) (next_key w) (key_create_answers w) rest
                            (once_controls w) (key_vars w))
         end
       else
         (rc, World (log (Ev_setspecific self k value rc) (memory w))
                    (key_table w) (next_key w) (key_create_answers w) rest
                    (once_controls w) (key_vars w)).

(** Reading the [key] member of a descriptor: [ts->key]. *)
Definition load_key (key : ptr) : M pthread_key_t :=
  λ w, (default 0%N (key_vars w !! key), w).

(** ** The allocator *)

(** Modelled from the spec: [ast_calloc] is declared in asterisk/utils.h,
    which is not part of the sources at hand.  It asks the external
    allocator for a zero-initialized block of [nmemb * size] bytes and
    gives its address, or NULL when the allocator has no block. *)
Definition ast_calloc_mem (nmemb size : size_t) (m : mem) : ptr * mem :=
  let p := hd NULL (calloc_answers m) in
  let rest := tl (calloc_answers m) in
  if p =? NULL then
    (NULL, Mem (heap m) rest (tls_objects m) (trace m ++ [Ev_calloc nmemb size NULL]))
  else
    (p, Mem (<[p := replicate (N.to_nat (nmemb * size)) x00]> (heap m)) rest
            (tls_objects m) (trace m ++ [Ev_calloc nmemb size p])).

Definition ast_calloc (nmemb size : size_t) : M ptr :=
  λ w, let '(p, m) := ast_calloc_mem nmemb size (memory w) in (p, with_memory (λ _, m) w).

Definition free_mem (p : ptr) (m : mem) : mem :=
  log (Ev_free p) (with_heap (delete p) m).

Definition free (p : ptr) : M unit := in_memory (free_mem p).

(** Modelled from the spec: [ast_free_ptr] comes from asterisk/utils.h; it
    is the plain release of a block, usable as a function pointer. *)
Definition ast_free_ptr (data : ptr) (h : heap_t) : heap_t :=
  delete data h.

(** ** The debug registry *)

(** Modelled from the spec: [__ast_threadstorage_object_add] is only
    declared in the header, its body is in main/threadstorage.c.  It
    inserts a new entry under the key it is given; a key that is already
    there is a programming error, which is reported and leaves the table
    as it was. *)
Definition __ast_threadstorage_object_add
    (key : ptr) (len : size_t) (file function : string) (line : N) (m : mem) : mem :=
  let m1 := log (Ev_object_add key len file function line) m in
  match tls_objects m !! key with
  | Some _ => log (Ev_registry_error key) m1
  | None => with_tls_objects (<[key := TlsObject len file function line]>) m1
  end.

(** Modelled from the spec: [__ast_threadstorage_object_remove] is only
    declared in the header.  It deletes the entry under the key it is
    given; a key that is not there is a programming error, which is
    reported. *)
Definition __ast_threadstorage_object_remove (key : ptr) (m : mem) : mem :=
  let m1 := log (Ev_object_remove key) m in
  match tls_objects m !! key with
  | Some _ => with_tls_objects (delete key) m1
  | None => log (Ev_registry_error key) m1
  end.

(** ** Declaring a descriptor *)

(** The [key] member follows the [once] member, a [pthread_once_t]; the
    stores for the two members are separate, so only the identity of the
    address matters. *)
Definition offsetof_key : Z := 4.

(** Calling the cleanup function a slot was declared with. *)
Definition call_cleanup (c_cleanup : cleanup_fn)
    (data : ptr) (m : mem) : mem :=
  with_heap (c_cleanup data) (log (Ev_cleanup data) m).

(** [ts->custom_init && ts->custom_init(buf)] *)
Definition call_custom_init
    (c_init : option init_fn) (buf : ptr) : M bool :=
  λ w, match c_init with
       | None => (false, w)
       | Some f =>
           let '(h, rc) := f buf (heap (memory w)) in
           (negb (rc =? 0),
            with_memory (λ m, log (Ev_custom_init buf rc) (with_heap (λ _, h) m)) w)
       end.

(** Without [DEBUG_THREADLOCALS]. *)
Module Plain.

Definition __init (name : ptr)
    (c_cleanup : cleanup_fn) : M unit :=
  _ ← pthread_key_create (name + offsetof_key) (call_cleanup c_cleanup); mret tt.

Definition AST_THREADSTORAGE_CUSTOM (name : ptr)
    (c_init : option init_fn)
    (c_cleanup : cleanup_fn) : ast_threadstorage :=
  {| once := name;
     key := name + offsetof_key;
     key_init := __init name c_cleanup;
     custom_init := c_init |}.

Definition AST_THREADSTORAGE (name : ptr) : ast_threadstorage :=
  AST_THREADSTORAGE_CUSTOM name None ast_free_ptr.

Definition ast_threadstorage_get (self : pthread_t)
    (ts : ast_threadstorage) (init_size : size_t) : M ptr :=
  _ ← pthread_once (once ts) (key_init ts);
  k ← load_key (key ts);
  buf ← pthread_getspecific self k;
  if buf =? NULL then
    buf ← ast_calloc 1%N init_size;
    if buf =? NULL then mret NULL
    else
      failed ← call_custom_init (custom_init ts) buf;
      if (failed : bool) then
        _ ← free buf; mret NULL
      else
        k ← load_key (key ts);
        _ ← pthread_setspecific self k buf;
        mret buf
  else mret buf.

End Plain.

(** With [DEBUG_THREADLOCALS]. *)
Module Debug.

Definition __cleanup (c_cleanup : cleanup_fn)
    (data : ptr) (m : mem) : mem :=
  call_cleanup c_cleanup data (__ast_threadstorage_object_remove data m).

Definition __init (name : ptr)
    (c_cleanup : cleanup_fn) : M unit :=
  _ ← pthread_key_create (name + offsetof_key) (__cleanup c_cleanup); mret tt.

Definition AST_THREADSTORAGE_CUSTOM (name : ptr)
    (c_init : option init_fn)
    (c_cleanup : cleanup_fn) : ast_threadstorage :=
  {| once := name;
     key := name + offsetof_key;
     key_init := __init name c_cleanup;
     custom_init := c_init |}.

Definition AST_THREADSTORAGE (name : ptr) : ast_threadstorage :=
  AST_THREADSTORAGE_CUSTOM name None ast_free_ptr.

Definition __ast_threadstorage_get (self : pthread_t)
    (ts : ast_threadstorage) (init_size : size_t)
    (file function : string) (line : N) : M ptr :=
  _ ← pthread_once (once ts) (key_init ts);
  k ← load_key (key ts);
  buf ← pthread_getspecific self k;
  if buf =? NULL then
    buf ← ast_calloc 1%N init_size;
    if buf =? NULL then mret NULL
    else
      failed ← call_custom_init (custom_init ts) buf;
      if (failed : bool) then
        _ ← free buf; mret NULL
      else
        k ← load_key (key ts);
        _ ← pthread_setspecific self k buf;
        _ ← (λ w, (tt, with_memory
               (__ast_threadstorage_object_add (key ts) init_size file function line) w)) : M unit;
        mret buf
  else mret buf.

(** The macro [ast_threadstorage_get(ts, init_size)] of this build: the
    call site ([__FILE__], [__PRETTY_FUNCTION__], [__LINE__]) comes along. *)
Definition ast_threadstorage_get (self : pthread_t)
    (ts : ast_threadstorage) (init_size : size_t)
    (__FILE__ __PRETTY_FUNCTION__ : string) (__LINE__ : N) : M ptr :=
  __ast_threadstorage_get self ts init_size __FILE__ __PRETTY_FUNCTION__ __LINE__.

End Debug.

(** ** Thread exit *)

(** What the runtime does for one key when thread [self] ends: a non-NULL
    value is reset to NULL and handed to the key's destructor. *)
Definition run_destructor (self : pthread_t) (k : pthread_key_t) (w : world) : world :=
  match key_table w !! k with
  | Some s =>
      let data := default NULL (values s !! self) in
      if data =? NULL then w
      else World (destructor s data (memory w))
                 (<[k := KeySlot (destructor s) (delete self (values s))]> (key_table w))
                 (next_key w) (key_create_answers w) (setspecific_answers w)
                 (once_controls w) (key_vars w)
  | None => w
  end.

Definition thread_exit (self : pthread_t) (w : world) : world :=
  foldr (run_destructor self) w (map fst (map_to_list (key_table w))).

(** A process that has not run anything yet, given the answers its
    allocator and its pthread runtime are going to give. *)
Definition boot (callocs : list ptr) (creates sets : list Z) : world :=
  World (Mem ∅ callocs ∅ []) ∅ 0%N creates sets ∅ ∅.

(** ** Vocabulary for the statements *)

(** The process right after the accessor's [pthread_once] call. *)
Definition after_once (ts : ast_threadstorage) (w : world) : world :=
  (pthread_once (once ts) (key_init ts) w).2.

(** What [pthread_getspecific(ts->key)] gives thread [self] in [w]. *)
Definition slot_value (self : pthread_t) (ts : ast_threadstorage) (w : world) : ptr :=
  (pthread_getspecific self (load_key (key ts) w).1 w).1.

(** The control of a descriptor has been used. *)
Definition once_done (ts : ast_threadstorage) (w : world) : Prop :=
  default false (once_controls w !! once ts) = true.

(** The process once the new block [p] is there: the state in which the
    custom initializer is called. *)
Definition allocated (n : size_t) (p : ptr) (w : world) : world :=
  with_memory (λ m, Mem (<[p := replicate (N.to_nat n) x00]> (heap m))
                        (tl (calloc_answers m)) (tls_objects m)
                        (trace m ++ [Ev_calloc 1%N n p])) w.

(** One accessor call of the diagnostic build: who calls, the size asked
    for, and the call site the macro passes along. *)
Record accessor_call := AccessorCall {
  c_self : pthread_t;
  c_size : size_t;
  c_file : string;
  c_function : string;
  c_line : N
}.

(** A run of accessor calls on one descriptor, in order. *)
Fixpoint Debug_run (ts : ast_threadstorage) (cs : list accessor_call) (w : world)
    : list ptr * world :=
  match cs with
  | [] => ([], w)
  | c :: cs' =>
      let '(buf, w1) :=
        Debug.__ast_threadstorage_get (c_self c) ts (c_size c)
          (c_file c) (c_function c) (c_line c) w in
      let '(bufs, w2) := Debug_run ts cs' w1 in
      (buf :: bufs, w2)
  end.

(** How many insertions into the debug registry a log records. *)
Definition is_object_add (e : event) : bool :=
  match e with Ev_object_add _ _ _ _ _ => true | _ => false end.

Definition count_adds (tr : list event) : nat :=
  length (List.filter is_object_add tr).

(** How many key creations a log records: the runs of [key_init]. *)
Definition is_key_create (e : event) : bool :=
  match e with Ev_key_create _ _ => true | _ => false end.

Definition count_key_creates (tr : list event) : nat :=
  length (List.filter is_key_create tr).

(** ** Processes used in the examples *)

(** A custom initializer that reports failure on every block. *)
Definition failing_init (buf : ptr) (h : heap_t) : heap_t * Z :=
  (h, 1).

(** The process in which thread 1 has already got its 64-byte buffer, at
    8192, for the plain slot declared at 4096. *)
Definition warm : world :=
  (Plain.ast_threadstorage_get 1%nat (Plain.AST_THREADSTORAGE 4096) 64%N
     (boot [8192] [] [])).2.

(** ** Runs of the plain accessor *)

(** A run of calls of the plain accessor on one descriptor, in order: who
    calls and the size asked for. *)
Fixpoint Plain_run (ts : ast_threadstorage) (cs : list (pthread_t * size_t)) (w : world)
    : list ptr * world :=
  match cs with
  | [] => ([], w)
  | c :: cs' =>
      let '(buf, w1) := Plain.ast_threadstorage_get c.1 ts c.2 w in
      let '(bufs, w2) := Plain_run ts cs' w1 in
      (buf :: bufs, w2)
  end.

(** How many requests to the allocator a log records. *)
Definition is_calloc (e : event) : bool :=
  match e with Ev_calloc _ _ _ => true | _ => false end.

Definition count_callocs (tr : list event) : nat :=
  length (List.filter is_calloc tr).

(** The calls into the debug registry, among the events of a log. *)
Definition is_registry_event (e : event) : bool :=
  match e with
  | Ev_object_add _ _ _ _ _ | Ev_object_remove _ | Ev_registry_error _ => true
  | _ => false
  end.

(** Every insertion a log records is under the key [k]. *)
Definition adds_keyed_by (k : ptr) (tr : list event) : Prop :=
  Forall (λ e, match e with Ev_object_add k' _ _ _ _ => k' = k | _ => True end) tr.

(** A custom initializer that writes a sentinel byte at offset 0 of the
    block and reports success. *)
Definition sentinel_init (buf : ptr) (h : heap_t) : heap_t * Z :=
  (alter (<[0%nat := x2a]>) buf h, 0).

(** The process in which thread 1 has got its buffer, at 8192, for the
    plain slot declared at 4096, and the allocator has 8256 to give next. *)
Definition warm_two : world :=
  (Plain.ast_threadstorage_get 1%nat (Plain.AST_THREADSTORAGE 4096) 64%N
     (boot [8192; 8256] [] [])).2.

(** ** The accessor, path by path *)

Ltac unfold_M := unfold mbind, mret, M_bind, M_ret.

#[local] Arguments replicate : simpl never.
#[local] Arguments N.to_nat : simpl never.

Lemma pthread_once_when_done ts w :
  once_done ts w -> pthread_once (once ts) (key_init ts) w = (0, w).
Proof. unfold once_done, pthread_once. intros ->. reflexivity. Qed.

Lemma after_once_when_done ts w : once_done ts w -> after_once ts w = w.
Proof. intros H. unfold after_once. by rewrite pthread_once_when_done. Qed.

Lemma once_done_after_once ts w : once_done ts (after_once ts w).
Proof.
  unfold once_done, after_once, pthread_once.
  destruct (default false (once_controls w !! once ts)) eqn:E; simpl; [exact E|].
  destruct (key_init ts w) as [u w1]. simpl. by rewrite lookup_insert_eq.
Qed.

Lemma after_once_idem ts w : after_once ts (after_once ts w) = after_once ts w.
Proof. apply after_once_when_done, once_done_after_once. Qed.

(** What the allocator call leaves behind. *)
Lemma ast_calloc_null n w :
  hd NULL (calloc_answers (memory w)) = NULL ->
  ast_calloc 1%N n w =
  (NULL, with_memory (λ m, Mem (heap m) (tl (calloc_answers m)) (tls_objects m)
                               (trace m ++ [Ev_calloc 1%N n NULL])) w).
Proof.
  intros H. unfold ast_calloc, ast_calloc_mem. rewrite H. reflexivity.
Qed.

Lemma ast_calloc_block n w p :
  hd NULL (calloc_answers (memory w)) = p -> p ≠ NULL ->
  ast_calloc 1%N n w =
  (p, with_memory (λ m, Mem (<[p := replicate (N.to_nat n) x00]> (heap m))
                            (tl (calloc_answers m)) (tls_objects m)
                            (trace m ++ [Ev_calloc 1%N n p])) w).
Proof.
  intros H Hp. unfold ast_calloc, ast_calloc_mem. rewrite H.
  destruct (Z.eqb_spec p NULL) as [->|_]; [done|].
  by rewrite N.mul_1_l.
Qed.

(** The slot of a thread only depends on the key variables and the key
    table. *)
Lemma slot_value_frame self ts w w' :
  key_table w' = key_table w -> key_vars w' = key_vars w ->
  slot_value self ts w' = slot_value self ts w.
Proof.
  unfold slot_value, pthread_getspecific, load_key. simpl. by intros -> ->.
Qed.

(** The two accessors as one case analysis each, and every path of it as
    an equation of its own. *)
Section accessor_paths.

Context (self : pthread_t) (ts : ast_threadstorage) (n : size_t).
Context (file function : string) (line : N).

Lemma Plain_get_unfold w :
  Plain.ast_threadstorage_get self ts n w =
  let w0 := after_once ts w in
  let buf := slot_value self ts w0 in
  if buf =? NULL then
    let w1 := (ast_calloc 1%N n w0).2 in
    let p := (ast_calloc 1%N n w0).1 in
    if p =? NULL then (NULL, w1)
    else
      let w2 := (call_custom_init (custom_init ts) p w1).2 in
      if (call_custom_init (custom_init ts) p w1).1 then (NULL, (free p w2).2)
      else (p, (pthread_setspecific self (load_key (key ts) w2).1 p w2).2)
  else (buf, w0).
Proof.
  unfold Plain.ast_threadstorage_get, after_once, slot_value. unfold_M.
  destruct (pthread_once (once ts) (key_init ts) w) as [rc w0]. simpl.
  destruct (_ =? NULL) eqn:E0; [|reflexivity].
  destruct (ast_calloc 1%N n w0) as [p w1]. simpl.
  destruct (p =? NULL); [reflexivity|].
  destruct (call_custom_init (custom_init ts) p w1) as [failed w2]. simpl.
  destruct failed; [reflexivity|].
  destruct (pthread_setspecific _ _ _ _). reflexivity.
Qed.

Lemma Debug_get_unfold w :
  Debug.__ast_threadstorage_get self ts n file function line w =
  let w0 := after_once ts w in
  let buf := slot_value self ts w0 in
  if buf =? NULL then
    let w1 := (ast_calloc 1%N n w0).2 in
    let p := (ast_calloc 1%N n w0).1 in
    if p =? NULL then (NULL, w1)
    else
      let w2 := (call_custom_init (custom_init ts) p w1).2 in
      if (call_custom_init (custom_init ts) p w1).1 then (NULL, (free p w2).2)
      else (p, with_memory (__ast_threadstorage_object_add (key ts) n file function line)
                 (pthread_setspecific self (load_key (key ts) w2).1 p w2).2)
  else (buf, w0).
Proof.
  unfold Debug.__ast_threadstorage_get, after_once, slot_value. unfold_M.
  destruct (pthread_once (once ts) (key_init ts) w) as [rc w0]. simpl.
  destruct (_ =? NULL) eqn:E0; [|reflexivity].
  destruct (ast_calloc 1%N n w0) as [p w1]. simpl.
  destruct (p =? NULL); [reflexivity|].
  destruct (call_custom_init (custom_init ts) p w1) as [failed w2]. simpl.
  destruct failed; [reflexivity|].
  destruct (pthread_setspecific _ _ _ _). reflexivity.
Qed.

Lemma Plain_get_hit w :
  slot_value self ts (after_once ts w) ≠ NULL ->
  Plain.ast_threadstorage_get self ts n w =
  (slot_value self ts (after_once ts w), after_once ts w).
Proof.
  intros H. rewrite Plain_get_unfold. simpl.
  by destruct (Z.eqb_spec (slot_value self ts (after_once ts w)) NULL).
Qed.

Lemma Debug_get_hit w :
  slot_value self ts (after_once ts w) ≠ NULL ->
  Debug.__ast_threadstorage_get self ts n file function line w =
  (slot_value self ts (after_once ts w), after_once ts w).
Proof.
  intros H. rewrite Debug_get_unfold. simpl.
  by destruct (Z.eqb_spec (slot_value self ts (after_once ts w)) NULL).
Qed.

Lemma Plain_get_alloc_fail w :
  slot_value self ts (after_once ts w) = NULL ->
  hd NULL (calloc_answers (memory (after_once ts w))) = NULL ->
  Plain.ast_threadstorage_get self ts n w =
  (NULL, (ast_calloc 1%N n (after_once ts w)).2).
Proof.
  intros H Ha. rewrite Plain_get_unfold. simpl. rewrite H. simpl.
  by rewrite (ast_calloc_null _ _ Ha).
Qed.

Lemma Debug_get_alloc_fail w :
  slot_value self ts (after_once ts w) = NULL ->
  hd NULL (calloc_answers (memory (after_once ts w))) = NULL ->
  Debug.__ast_threadstorage_get self ts n file function line w =
  (NULL, (ast_calloc 1%N n (after_once ts w)).2).
Proof.
  intros H Ha. rewrite Debug_get_unfold. simpl. rewrite H. simpl.
  by rewrite (ast_calloc_null _ _ Ha).
Qed.

Lemma Plain_get_miss w p :
  slot_value self ts (after_once ts w) = NULL ->
  hd NULL (calloc_answers (memory (after_once ts w))) = p -> p ≠ NULL ->
  Plain.ast_threadstorage_get self ts n w =
  let w1 := allocated n p (after_once ts w) in
  let w2 := (call_custom_init (custom_init ts) p w1).2 in
  if (call_custom_init (custom_init ts) p w1).1 then (NULL, (free p w2).2)
  else (p, (pthread_setspecific self (load_key (key ts) w2).1 p w2).2).
Proof.
  intros H Ha Hp. rewrite Plain_get_unfold. simpl. rewrite H. simpl.
  rewrite (ast_calloc_block _ _ _ Ha Hp). simpl.
  by destruct (Z.eqb_spec p NULL).
Qed.

Lemma Debug_get_miss w p :
  slot_value self ts (after_once ts w) = NULL ->
  hd NULL (calloc_answers (memory (after_once ts w))) = p -> p ≠ NULL ->
  Debug.__ast_threadstorage_get self ts n file function line w =
  let w1 := allocated n p (after_once ts w) in
  let w2 := (call_custom_init (custom_init ts) p w1).2 in
  if (call_custom_init (custom_init ts) p w1).1 then (NULL, (free p w2).2)
  else (p, with_memory (__ast_threadstorage_object_add (key ts) n file function line)
             (pthread_setspecific self (load_key (key ts) w2).1 p w2).2).
Proof.
  intros H Ha Hp. rewrite Debug_get_unfold. simpl. rewrite H. simpl.
  rewrite (ast_calloc_block _ _ _ Ha Hp). simpl.
  by destruct (Z.eqb_spec p NULL).
Qed.

Lemma Plain_get_miss_trace w :
  slot_value self ts (after_once ts w) = NULL ->
  let w0 := after_once ts w in
  let q := hd NULL (calloc_answers (memory w0)) in
  ∃ tail, trace (memory (Plain.ast_threadstorage_get self ts n w).2)
          = trace (memory w0) ++ Ev_calloc 1%N n q :: tail ∧
          (q ≠ NULL -> custom_init ts ≠ None ->
           ∃ rc tail2, tail = Ev_custom_init q rc :: tail2).
Proof.
  intros Hs. simpl.
  destruct (decide (hd NULL (calloc_answers (memory (after_once ts w))) = NULL)) as [Hq|Hq].
  - rewrite Plain_get_alloc_fail, (ast_calloc_null _ _ Hq) by done.
    rewrite Hq. exists []. split; [done|]. done.
  - rewrite (Plain_get_miss _ _ Hs eq_refl Hq).
    set (q := hd NULL _) in *. set (w0 := after_once ts w). simpl.
    destruct (custom_init ts) as [f|]; simpl.
    + destruct (f q _) as [h rc] eqn:Ef. simpl.
      destruct (negb (rc =? 0)); simpl.
      * exists [Ev_custom_init q rc; Ev_free q]. rewrite <- !app_assoc. simpl. eauto.
      * unfold pthread_setspecific. simpl.
        destruct (hd 0 (setspecific_answers w0) =? 0);
          [destruct (key_table w0 !! _)|]; simpl;
          rewrite <- !app_assoc; simpl; eauto.
    + unfold pthread_setspecific. simpl.
      destruct (hd 0 (setspecific_answers w0) =? 0);
        [destruct (key_table w0 !! _)|]; simpl;
        rewrite <- !app_assoc; simpl; eexists; (split; [reflexivity|done]).
Qed.

Lemma Debug_get_miss_trace w :
  slot_value self ts (after_once ts w) = NULL ->
  let w0 := after_once ts w in
  let q := hd NULL (calloc_answers (memory w0)) in
  ∃ tail, trace (memory (Debug.__ast_threadstorage_get self ts n file function line w).2)
          = trace (memory w0) ++ Ev_calloc 1%N n q :: tail ∧
          (q ≠ NULL -> custom_init ts ≠ None ->
           ∃ rc tail2, tail = Ev_custom_init q rc :: tail2).
Proof.
  intros Hs. simpl.
  destruct (decide (hd NULL (calloc_answers (memory (after_once ts w))) = NULL)) as [Hq|Hq].
  - rewrite Debug_get_alloc_fail, (ast_calloc_null _ _ Hq) by done.
    rewrite Hq. exists []. split; [done|]. done.
  - rewrite (Debug_get_miss _ _ Hs eq_refl Hq).
    set (q := hd NULL _) in *. set (w0 := after_once ts w). simpl.
    unfold __ast_threadstorage_object_add.
    destruct (custom_init ts) as [f|]; simpl.
    + destruct (f q _) as [h rc] eqn:Ef. simpl.
      destruct (negb (rc =? 0)); simpl.
      * exists [Ev_custom_init q rc; Ev_free q]. rewrite <- !app_assoc. simpl. eauto.
      * unfold pthread_setspecific. simpl.
        destruct (hd 0 (setspecific_answers w0) =? 0);
          [destruct (key_table w0 !! _)|]; simpl;
          destruct (tls_objects (memory w0) !! key ts); simpl;
          rewrite <- !app_assoc; simpl; eauto.
    + unfold pthread_setspecific. simpl.
      destruct (hd 0 (setspecific_answers w0) =? 0);
        [destruct (key_table w0 !! _)|]; simpl;
        destruct (tls_objects (memory w0) !! key ts); simpl;
        rewrite <- !app_assoc; simpl; eexists; (split; [reflexivity|done]).
Qed.

End accessor_paths.

(** The custom initializer only reaches the heap and the log. *)
Lemma call_custom_init_frame c_init buf w :
  let w' := (call_custom_init c_init buf w).2 in
  key_table w' = key_table w ∧ key_vars w' = key_vars w ∧
  setspecific_answers w' = setspecific_answers w ∧
  once_controls w' = once_controls w ∧
  tls_objects (memory w') = tls_objects (memory w) ∧
  calloc_answers (memory w') = calloc_answers (memory w).
Proof.
  unfold call_custom_init. destruct c_init as [f|]; [|done].
  by destruct (f buf _).
Qed.

(** The first use of a slot declared with the plain macro, when the
    runtime has a key for it. *)
Lemma Plain_after_once_fresh name c_init c_cleanup w :
  let ts := Plain.AST_THREADSTORAGE_CUSTOM name c_init c_cleanup in
  ¬ once_done ts w -> hd 0 (key_create_answers w) = 0 ->
  after_once ts w =
  World (log (Ev_key_create (name + offsetof_key) 0) (memory w))
        (<[next_key w := KeySlot (call_cleanup c_cleanup) ∅]> (key_table w))
        (N.succ (next_key w)) (tl (key_create_answers w)) (setspecific_answers w)
        (<[name := true]> (once_controls w))
        (<[name + offsetof_key := next_key w]> (key_vars w)).
Proof.
  simpl. unfold once_done, after_once, pthread_once. simpl. intros Hd Hk.
  destruct (default false (once_controls w !! name)); [done|].
  unfold Plain.__init, pthread_key_create. unfold_M. rewrite Hk. reflexivity.
Qed.

Lemma Debug_after_once_fresh name c_init c_cleanup w :
  let ts := Debug.AST_THREADSTORAGE_CUSTOM name c_init c_cleanup in
  ¬ once_done ts w -> hd 0 (key_create_answers w) = 0 ->
  after_once ts w =
  World (log (Ev_key_create (name + offsetof_key) 0) (memory w))
        (<[next_key w := KeySlot (Debug.__cleanup c_cleanup) ∅]> (key_table w))
        (N.succ (next_key w)) (tl (key_create_answers w)) (setspecific_answers w)
        (<[name := true]> (once_controls w))
        (<[name + offsetof_key := next_key w]> (key_vars w)).
Proof.
  simpl. unfold once_done, after_once, pthread_once. simpl. intros Hd Hk.
  destruct (default false (once_controls w !! name)); [done|].
  unfold Debug.__init, pthread_key_create. unfold_M. rewrite Hk. reflexivity.
Qed.

(** A slot that is used for the first time is empty in every thread. *)
Lemma Plain_fresh_slot_is_empty name c_init c_cleanup w self :
  let ts := Plain.AST_THREADSTORAGE_CUSTOM name c_init c_cleanup in
  ¬ once_done ts w -> hd 0 (key_create_answers w) = 0 ->
  slot_value self ts (after_once ts w) = NULL.
Proof.
  intros ts Hd Hk. unfold ts. rewrite (Plain_after_once_fresh _ _ _ _ Hd Hk).
  unfold slot_value, pthread_getspecific, load_key. simpl.
  by rewrite !lookup_insert_eq.
Qed.

Lemma Debug_fresh_slot_is_empty name c_init c_cleanup w self :
  let ts := Debug.AST_THREADSTORAGE_CUSTOM name c_init c_cleanup in
  ¬ once_done ts w -> hd 0 (key_create_answers w) = 0 ->
  slot_value self ts (after_once ts w) = NULL.
Proof.
  intros ts Hd Hk. unfold ts. rewrite (Debug_after_once_fresh _ _ _ _ Hd Hk).
  unfold slot_value, pthread_getspecific, load_key. simpl.
  by rewrite !lookup_insert_eq.
Qed.

Lemma count_adds_app tr tr' : count_adds (tr ++ tr') = (count_adds tr + count_adds tr')%nat.
Proof. unfold count_adds. by rewrite List.filter_app, length_app. Qed.

(** Using the control of a slot declared in the diagnostic build leaves
    the registry alone. *)
Lemma Debug_after_once_registry name c_init c_cleanup w :
  let ts := Debug.AST_THREADSTORAGE_CUSTOM name c_init c_cleanup in
  tls_objects (memory (after_once ts w)) = tls_objects (memory w) ∧
  count_adds (trace (memory (after_once ts w))) = count_adds (trace (memory w)).
Proof.
  simpl. unfold after_once, pthread_once. simpl.
  destruct (default false (once_controls w !! name)); [done|].
  unfold Debug.__init, pthread_key_create. unfold_M.
  destruct (hd 0 (key_create_answers w) =? 0); simpl;
    rewrite count_adds_app; simpl; split; (done || lia).
Qed.

(** One call on an empty slot whose custom initializer fails whatever it
    is given. *)
Lemma Debug_get_init_always_fails self ts n file function line w f :
  custom_init ts = Some f -> (∀ p h, (f p h).2 ≠ 0) ->
  slot_value self ts (after_once ts w) = NULL ->
  let w0 := after_once ts w in
  let r := Debug.__ast_threadstorage_get self ts n file function line w in
  r.1 = NULL ∧
  tls_objects (memory r.2) = tls_objects (memory w0) ∧
  count_adds (trace (memory r.2)) = count_adds (trace (memory w0)) ∧
  key_table r.2 = key_table w0 ∧ key_vars r.2 = key_vars w0 ∧
  once_controls r.2 = once_controls w0.
Proof.
  intros Hf Hfail Hs. simpl.
  destruct (decide (hd NULL (calloc_answers (memory (after_once ts w))) = NULL)) as [Hq|Hq].
  - rewrite Debug_get_alloc_fail, (ast_calloc_null _ _ Hq) by done. simpl.
    rewrite count_adds_app. simpl. split_and!; (done || lia).
  - rewrite (Debug_get_miss _ _ _ _ _ _ _ _ Hs eq_refl Hq). simpl. rewrite Hf. simpl.
    match goal with |- context [f ?a ?b] => pose proof (Hfail a b) as Hrc end.
    destruct (f _ _) as [h rc] eqn:Ef. simpl in *.
    destruct (Z.eqb_spec rc 0) as [|_]; [done|]. simpl.
    rewrite !count_adds_app. split_and!; try done.
    unfold count_adds. simpl. lia.
Qed.

(** Every call of the diagnostic accessor either records no insertion and
    leaves the registry as [pthread_once] left it, or it went all the way:
    block allocated, custom initializer (if any) returned 0, binding
    attempted, and only then the insertion. *)
Lemma Debug_get_registry_cases self ts n file function line w :
  let w0 := after_once ts w in
  let r := Debug.__ast_threadstorage_get self ts n file function line w in
  (count_adds (trace (memory r.2)) = count_adds (trace (memory w0)) ∧
   tls_objects (memory r.2) = tls_objects (memory w0)) ∨
  (∃ p init_ev k rc errs,
     p ≠ NULL ∧ r.1 = p ∧ hd NULL (calloc_answers (memory w0)) = p ∧
     (init_ev = [] ∨ init_ev = [Ev_custom_init p 0]) ∧
     trace (memory r.2)
       = trace (memory w0) ++ Ev_calloc 1%N n p :: init_ev
         ++ [Ev_setspecific self k p rc;
             Ev_object_add (key ts) n file function line] ++ errs).
Proof.
  simpl.
  destruct (decide (slot_value self ts (after_once ts w) = NULL)) as [Hs|Hs];
    [|left; by rewrite Debug_get_hit].
  destruct (decide (hd NULL (calloc_answers (memory (after_once ts w))) = NULL)) as [Hq|Hq].
  { left. rewrite Debug_get_alloc_fail, (ast_calloc_null _ _ Hq) by done. simpl.
    rewrite count_adds_app. unfold count_adds. simpl. split; [lia|done]. }
  rewrite (Debug_get_miss _ _ _ _ _ _ _ _ Hs eq_refl Hq).
  set (p := hd NULL _) in *. set (w0 := after_once ts w) in *. simpl.
  destruct (call_custom_init (custom_init ts) p (allocated n p w0)) as [failed w2] eqn:Ec.
  simpl. destruct failed.
  { left. unfold call_custom_init in Ec. destruct (custom_init ts) as [f|]; [|done].
    destruct (f p _) as [h rc]. injection Ec as _ <-. simpl.
    rewrite !count_adds_app. unfold count_adds. simpl. split; [lia|done]. }
  right.
  assert (Hi : ∃ init_ev, (init_ev = [] ∨ init_ev = [Ev_custom_init p 0]) ∧
             trace (memory w2) = (trace (memory w0) ++ [Ev_calloc 1%N n p]) ++ init_ev).
  { unfold call_custom_init in Ec. destruct (custom_init ts) as [f|].
    - destruct (f p _) as [h rc]. injection Ec as Erc <-.
      assert (rc = 0) as -> by (by destruct (Z.eqb_spec rc 0)).
      exists [Ev_custom_init p 0]. split; [by right|done].
    - injection Ec as <-. exists []. split; [by left|]. simpl. by rewrite app_nil_r. }
  destruct Hi as (init_ev & Hie & Htr).
  exists p, init_ev, (default 0%N (key_vars w2 !! key ts)).
  unfold pthread_setspecific, load_key, __ast_threadstorage_object_add. simpl.
  destruct (hd 0 (setspecific_answers w2) =? 0);
    [destruct (key_table w2 !! _)|]; simpl;
    destruct (tls_objects (memory w2) !! key ts); simpl;
    rewrite Htr, <- !app_assoc; simpl;
    eexists _, _; (split_and!; [done|done|done|done|reflexivity]).
Qed.

(** *** Key creation over a run of calls

    Calls that follow one another, by whatever threads: the key of a slot
    is created by the first call and by no later one. *)

Lemma count_key_creates_app tr tr' :
  count_key_creates (tr ++ tr') = (count_key_creates tr + count_key_creates tr')%nat.
Proof. unfold count_key_creates. by rewrite List.filter_app, length_app. Qed.

Lemma Debug_get_creates_no_key self ts n file function line w :
  let w0 := after_once ts w in
  let r := Debug.__ast_threadstorage_get self ts n file function line w in
  count_key_creates (trace (memory r.2)) = count_key_creates (trace (memory w0)) ∧
  once_controls r.2 = once_controls w0.
Proof.
  simpl.
  destruct (decide (slot_value self ts (after_once ts w) = NULL)) as [Hs|Hs];
    [|by rewrite Debug_get_hit].
  destruct (decide (hd NULL (calloc_answers (memory (after_once ts w))) = NULL)) as [Hq|Hq].
  { rewrite Debug_get_alloc_fail, (ast_calloc_null _ _ Hq) by done. simpl.
    rewrite count_key_creates_app. unfold count_key_creates. simpl. split; [lia|done]. }
  rewrite (Debug_get_miss _ _ _ _ _ _ _ _ Hs eq_refl Hq).
  set (p := hd NULL _) in *. set (w0 := after_once ts w) in *. simpl.
  unfold call_custom_init, pthread_setspecific, __ast_threadstorage_object_add.
  destruct (custom_init ts) as [f|]; simpl.
  - destruct (f p _) as [h rc]. simpl.
    destruct (negb (rc =? 0)); simpl.
    + rewrite !count_key_creates_app. unfold count_key_creates. simpl. split; [lia|done].
    + destruct (hd 0 (setspecific_answers w0) =? 0);
        [destruct (key_table w0 !! _)|]; simpl;
        destruct (tls_objects (memory w0) !! key ts); simpl;
        rewrite !count_key_creates_app; unfold count_key_creates; simpl;
        (split; [lia|done]).
  - destruct (hd 0 (setspecific_answers w0) =? 0);
      [destruct (key_table w0 !! _)|]; simpl;
      destruct (tls_objects (memory w0) !! key ts); simpl;
      rewrite !count_key_creates_app; unfold count_key_creates; simpl;
      (split; [lia|done]).
Qed.

Lemma Debug_run_creates_no_key ts cs w :
  once_done ts w ->
  count_key_creates (trace (memory (Debug_run ts cs w).2))
  = count_key_creates (trace (memory w)).
Proof.
  revert w. induction cs as [|c cs IH]; intros w Hd; simpl; [done|].
  destruct (Debug_get_creates_no_key (c_self c) ts (c_size c) (c_file c)
              (c_function c) (c_line c) w) as [Hc Ho].
  rewrite (after_once_when_done _ _ Hd) in Hc, Ho.
  destruct (Debug.__ast_threadstorage_get _ _ _ _ _ _ w) as [buf w1]. simpl in Hc, Ho.
  assert (Hd1 : once_done ts w1) by (unfold once_done; by rewrite Ho).
  specialize (IH w1 Hd1). destruct (Debug_run ts cs w1) as [bufs w2]. simpl in *.
  by rewrite IH.
Qed.

Lemma Debug_after_once_creates_key name c_init c_cleanup w :
  let ts := Debug.AST_THREADSTORAGE_CUSTOM name c_init c_cleanup in
  ¬ once_done ts w ->
  count_key_creates (trace (memory (after_once ts w)))
  = S (count_key_creates (trace (memory w))).
Proof.
  simpl. unfold once_done, after_once, pthread_once. simpl. intros Hd.
  destruct (default false (once_controls w !! name)); [done|].
  unfold Debug.__init, pthread_key_create. unfold_M.
  destruct (hd 0 (key_create_answers w) =? 0); simpl;
    rewrite count_key_creates_app; unfold count_key_creates; simpl; lia.
Qed.

(** In a run of calls on a slot nobody has touched, [key_init] runs in
    the first call and never again, whichever threads make the calls. *)
Lemma key_init_runs_once_in_a_run name c_init c_cleanup cs w :
  let ts := Debug.AST_THREADSTORAGE_CUSTOM name c_init c_cleanup in
  ¬ once_done ts w -> cs ≠ [] ->
  count_key_creates (trace (memory (Debug_run ts cs w).2))
  = S (count_key_creates (trace (memory w))).
Proof.
  intros ts Hd Hcs. destruct cs as [|c cs]; [done|]. simpl.
  destruct (Debug_get_creates_no_key (c_self c) ts (c_size c) (c_file c)
              (c_function c) (c_line c) w) as [Hc Ho].
  pose proof (once_done_after_once ts w) as Hd0.
  destruct (Debug.__ast_threadstorage_get _ _ _ _ _ _ w) as [buf w1]. simpl in Hc, Ho.
  assert (Hd1 : once_done ts w1) by (unfold once_done; by rewrite Ho).
  pose proof (Debug_run_creates_no_key ts cs w1 Hd1) as Hrun.
  destruct (Debug_run ts cs w1) as [bufs w2]. simpl in *.
  rewrite Hrun, Hc. by apply Debug_after_once_creates_key.
Qed.

(** *** The keys the registry is called with *)

(** A call that goes all the way inserts under the address of the
    descriptor's [key] member. *)
Lemma Debug_get_inserts_under_key_address self ts n file function line w p :
  slot_value self ts (after_once ts w) = NULL ->
  hd NULL (calloc_answers (memory (after_once ts w))) = p -> p ≠ NULL ->
  (call_custom_init (custom_init ts) p (allocated n p (after_once ts w))).1 = false ->
  tls_objects (memory (after_once ts w)) !! key ts = None ->
  let r := Debug.__ast_threadstorage_get self ts n file function line w in
  r.1 = p ∧
  tls_objects (memory r.2) = <[key ts := TlsObject n file function line]>
                               (tls_objects (memory (after_once ts w))).
Proof.
  intros Hs Ha Hp Hi Hk. simpl.
  rewrite (Debug_get_miss _ _ _ _ _ _ _ _ Hs Ha Hp). simpl. rewrite Hi.
  destruct (call_custom_init_frame (custom_init ts) p (allocated n p (after_once ts w)))
    as (_ & _ & _ & _ & Hto & _). simpl in Hto.
  split; [done|]. simpl.
  unfold __ast_threadstorage_object_add, pthread_setspecific. simpl.
  destruct (hd 0 _ =? 0); [destruct (key_table _ !! _)|]; simpl;
    rewrite Hto, Hk; simpl; by rewrite Hto.
Qed.

(** The destructor asks for the removal of [data], the buffer, and leaves
    every entry under another key where it is. *)
Lemma Debug_cleanup_keeps_other_entries c_cleanup data k m :
  k ≠ data ->
  tls_objects (Debug.__cleanup c_cleanup data m) !! k = tls_objects m !! k.
Proof.
  intros Hk. unfold Debug.__cleanup, call_cleanup, __ast_threadstorage_object_remove.
  destruct (tls_objects m !! data); simpl; [|done].
  by rewrite lookup_delete_ne.
Qed.

(** The destructor of the diagnostic build makes its two calls in this
    order: the removal request under [data], then the release function.
    Between them the heap is the one the destructor found, and the
    registry has no entry under [data] from the request on. *)
Lemma Debug_cleanup_calls_in_order
    (c_cleanup : cleanup_fn) (data : ptr) (m : mem) :
  let m1 := __ast_threadstorage_object_remove data m in
  let m2 := Debug.__cleanup c_cleanup data m in
  (∃ errs, (errs = [] ∨ errs = [Ev_registry_error data]) ∧
     trace m1 = trace m ++ Ev_object_remove data :: errs ∧
     trace m2 = trace m1 ++ [Ev_cleanup data]) ∧
  heap m1 = heap m ∧
  tls_objects m1 !! data = None ∧
  heap m2 = c_cleanup data (heap m1) ∧
  tls_objects m2 !! data = None.
Proof.
  simpl. unfold Debug.__cleanup, call_cleanup, __ast_threadstorage_object_remove.
  destruct (tls_objects m !! data) eqn:E; simpl.
  - split_and!; try done.
    + exists []. split_and!; [by left | done | done].
    + apply lookup_delete_eq.
    + apply lookup_delete_eq.
  - split_and!; try done.
    exists [Ev_registry_error data]. split_and!; [by right | by rewrite <- app_assoc | done].
Qed.

(** ** The claims *)

(** C1: when the thread's slot already holds a buffer [p] (the lookup
    after [pthread_once] gives a non-NULL pointer), [ast_threadstorage_get]
    returns [p] whatever [init_size] is.  Two calls by the same thread with
    sizes [s1] then [s2], with any writes [g] to the heap in between, both
    return [p]; neither call changes anything, so the block is not released
    or allocated again and what was written between the calls is still
    there after the second. *)
Theorem C1_cache_hit_returns_same_buffer
    (self : pthread_t) (ts : ast_threadstorage) (s1 s2 : size_t) (w : world) (p : ptr)
    (g : heap_t -> heap_t) :
  slot_value self ts (after_once ts w) = p -> p ≠ NULL ->
  let r1 := Plain.ast_threadstorage_get self ts s1 w in
  let between := with_memory (with_heap g) r1.2 in
  let r2 := Plain.ast_threadstorage_get self ts s2 between in
  r1.1 = p ∧ r2.1 = p ∧
  r1.2 = after_once ts w ∧ r2.2 = between ∧
  heap (memory r2.2) = g (heap (memory (after_once ts w))) ∧
  trace (memory r2.2) = trace (memory (after_once ts w)).
Proof.
  intros Hp Hnn. simpl.
  assert (H1 : Plain.ast_threadstorage_get self ts s1 w = (p, after_once ts w)).
  { rewrite Plain_get_hit; rewrite Hp; done. }
  rewrite H1. simpl.
  set (between := with_memory (with_heap g) (after_once ts w)).
  assert (Hd : once_done ts between) by apply (once_done_after_once ts w).
  assert (Hs : slot_value self ts (after_once ts between) = p).
  { rewrite (after_once_when_done _ _ Hd), <- Hp. by apply slot_value_frame. }
  assert (H2 : Plain.ast_threadstorage_get self ts s2 between = (p, between)).
  { rewrite Plain_get_hit; rewrite Hs; [|done].
    by rewrite (after_once_when_done _ _ Hd). }
  rewrite H2. simpl. done.
Qed.

(** C1 at work: in [warm] thread 1 holds 8192; it asks for 16 bytes,
    writes to its buffer, asks for 4096 bytes, and gets 8192 both times
    with its writes in place. *)
Lemma C1_cache_hit_returns_same_buffer_witness :
  (Plain.ast_threadstorage_get 1%nat (Plain.AST_THREADSTORAGE 4096) 16%N warm).1 = 8192 ∧
  (Plain.ast_threadstorage_get 1%nat (Plain.AST_THREADSTORAGE 4096) 4096%N
     (with_memory (with_heap (<[8192 := replicate 64 x2a]>))
        (Plain.ast_threadstorage_get 1%nat (Plain.AST_THREADSTORAGE 4096) 16%N warm).2)).1
  = 8192 ∧
  heap (memory
    (Plain.ast_threadstorage_get 1%nat (Plain.AST_THREADSTORAGE 4096) 4096%N
       (with_memory (with_heap (<[8192 := replicate 64 x2a]>))
          (Plain.ast_threadstorage_get 1%nat (Plain.AST_THREADSTORAGE 4096) 16%N warm).2)).2)
  !! 8192 = Some (replicate 64 x2a).
Proof.
  destruct (C1_cache_hit_returns_same_buffer 1%nat (Plain.AST_THREADSTORAGE 4096)
              16%N 4096%N warm 8192 (<[8192 := replicate 64 x2a]>))
    as (H1 & H2 & _ & _ & H3 & _).
  - reflexivity.
  - discriminate.
  - split_and!; [exact H1 | exact H2 |].
    rewrite H3. apply lookup_insert_eq.
Defined.

(** C2: when the custom initializer is set and reports failure on the new
    block [p], the accessor hands [p] back to the allocator and returns
    NULL; the thread's binding is not written, so the slot is still empty
    and the next call by the same thread asks the allocator again and, if
    it gets a block, runs the custom initializer on it again. *)
Theorem C2_init_failure_rolls_back
    (self : pthread_t) (ts : ast_threadstorage) (n n2 : size_t) (w : world) (p : ptr)
    (f : init_fn) :
  custom_init ts = Some f ->
  slot_value self ts (after_once ts w) = NULL ->
  hd NULL (calloc_answers (memory (after_once ts w))) = p -> p ≠ NULL ->
  (f p (heap (memory (allocated n p (after_once ts w))))).2 ≠ 0 ->
  let w0 := after_once ts w in
  let rc := (f p (heap (memory (allocated n p w0)))).2 in
  let r := Plain.ast_threadstorage_get self ts n w in
  let r2 := Plain.ast_threadstorage_get self ts n2 r.2 in
  r.1 = NULL ∧
  heap (memory r.2) !! p = None ∧
  trace (memory r.2)
    = trace (memory w0) ++ [Ev_calloc 1%N n p; Ev_custom_init p rc; Ev_free p] ∧
  key_table r.2 = key_table w0 ∧
  slot_value self ts r.2 = NULL ∧
  ∃ tail, trace (memory r2.2)
          = trace (memory r.2)
            ++ Ev_calloc 1%N n2 (hd NULL (calloc_answers (memory r.2))) :: tail ∧
          (hd NULL (calloc_answers (memory r.2)) ≠ NULL ->
           ∃ rc2 tail2,
             tail = Ev_custom_init (hd NULL (calloc_answers (memory r.2))) rc2 :: tail2).
Proof.
  intros Hf Hs Ha Hp Hrc. simpl.
  pose proof (once_done_after_once ts w) as Hd.
  rewrite (Plain_get_miss _ _ _ _ _ Hs Ha Hp). simpl. rewrite Hf. simpl.
  set (w0 := after_once ts w) in *.
  destruct (f p _) as [h rc] eqn:Ef. simpl in *.
  destruct (Z.eqb_spec rc 0) as [|_]; [done|]. simpl.
  set (w' := with_memory _ _).
  assert (Hd' : once_done ts w') by exact Hd.
  assert (Hs' : slot_value self ts (after_once ts w') = NULL).
  { rewrite (after_once_when_done _ _ Hd'). rewrite <- Hs. by apply slot_value_frame. }
  split_and!; try done.
  - subst w'. simpl. apply lookup_delete_eq.
  - subst w'. simpl. by rewrite <- !app_assoc.
  - destruct (Plain_get_miss_trace self ts n2 w' Hs') as [tail [Ht Hc]].
    rewrite (after_once_when_done _ _ Hd') in Ht, Hc.
    exists tail. split; [exact Ht|].
    intros Hq. apply Hc; [done|]. by rewrite Hf.
Qed.

(** C2 at work: a slot whose initializer always fails, in a new process
    whose allocator answers 8192: the call returns NULL and 8192 is not on
    the heap afterwards. *)
Lemma C2_init_failure_rolls_back_witness :
  (Plain.ast_threadstorage_get 1%nat
     (Plain.AST_THREADSTORAGE_CUSTOM 4096 (Some failing_init) ast_free_ptr) 64%N
     (boot [8192; 8192] [] [])).1 = NULL ∧
  heap (memory (Plain.ast_threadstorage_get 1%nat
     (Plain.AST_THREADSTORAGE_CUSTOM 4096 (Some failing_init) ast_free_ptr) 64%N
     (boot [8192; 8192] [] [])).2) !! 8192 = None.
Proof.
  destruct (C2_init_failure_rolls_back 1%nat
              (Plain.AST_THREADSTORAGE_CUSTOM 4096 (Some failing_init) ast_free_ptr)
              64%N 64%N (boot [8192; 8192] [] []) 8192 failing_init)
    as (H1 & H2 & _).
  - reflexivity.
  - reflexivity.
  - reflexivity.
  - discriminate.
  - discriminate.
  - split; [exact H1 | exact H2].
Defined.

(** C3: when the thread's slot is empty the accessor's next call is
    [ast_calloc(1, init_size)]: a request for one zeroed block of
    [init_size] bytes, which is what the heap holds at the answered address
    when there is one.  When the allocator has no block the accessor
    returns NULL and nothing is registered: the request is the only call
    made, and key table, thread slot, debug registry and heap are as they
    were.  Both builds. *)
Theorem C3_allocation_failure_registers_nothing
    (self : pthread_t) (ts : ast_threadstorage) (n : size_t)
    (file function : string) (line : N) (w : world) :
  slot_value self ts (after_once ts w) = NULL ->
  let w0 := after_once ts w in
  let q := hd NULL (calloc_answers (memory w0)) in
  let r := Plain.ast_threadstorage_get self ts n w in
  let r' := Debug.__ast_threadstorage_get self ts n file function line w in
  (∃ tail tail',
     trace (memory r.2) = trace (memory w0) ++ Ev_calloc 1%N n q :: tail ∧
     trace (memory r'.2) = trace (memory w0) ++ Ev_calloc 1%N n q :: tail') ∧
  (q ≠ NULL ->
     heap (memory (ast_calloc 1%N n w0).2) !! q = Some (replicate (N.to_nat n) x00)) ∧
  (q = NULL ->
     r' = r ∧
     r.1 = NULL ∧
     trace (memory r.2) = trace (memory w0) ++ [Ev_calloc 1%N n NULL] ∧
     key_table r.2 = key_table w0 ∧
     slot_value self ts r.2 = NULL ∧
     tls_objects (memory r.2) = tls_objects (memory w0) ∧
     heap (memory r.2) = heap (memory w0)).
Proof.
  intros Hs. simpl. split_and!.
  - destruct (Plain_get_miss_trace self ts n w Hs) as (tail & Ht & _).
    destruct (Debug_get_miss_trace self ts n file function line w Hs) as (tail' & Ht' & _).
    by exists tail, tail'.
  - intros Hq. rewrite (ast_calloc_block _ _ _ eq_refl Hq). simpl.
    apply lookup_insert_eq.
  - intros Ha.
    rewrite Debug_get_alloc_fail, Plain_get_alloc_fail by done.
    rewrite (ast_calloc_null _ _ Ha). simpl.
    repeat split; done.
Qed.

(** C3 at work: the allocator of a new process has nothing to give. *)
Lemma C3_allocation_failure_registers_nothing_witness :
  (Plain.ast_threadstorage_get 1%nat (Plain.AST_THREADSTORAGE 4096) 64%N
     (boot [] [] [])).1 = NULL.
Proof.
  destruct (C3_allocation_failure_registers_nothing 1%nat (Plain.AST_THREADSTORAGE 4096)
              64%N "app.c" "f" 10%N (boot [] [] [])) as (_ & _ & H).
  - reflexivity.
  - destruct H as (_ & H & _); [reflexivity | exact H].
Defined.

(** C5 (evaluation): the slot is declared at address 4096 in the
    diagnostic build, so its [key] member is at 4100; thread 1 asks for 64
    bytes and the allocator answers 8192.  The accessor inserts the
    registry entry under 4100, the address of the key member.  At thread
    exit the destructor asks the registry to remove 8192, the buffer: the
    registry has no such entry and reports an error, and the entry under
    4100 is still there after the buffer is gone. *)
Theorem C5_cleanup_misses_the_inserted_entry :
  let ts := Debug.AST_THREADSTORAGE 4096 in
  let r := Debug.__ast_threadstorage_get 1%nat ts 64%N "app.c" "f" 10%N
             (boot [8192] [] []) in
  let w' := thread_exit 1%nat r.2 in
  r.1 = 8192 ∧
  trace (memory r.2)
    = [Ev_key_create 4100 0; Ev_calloc 1%N 64%N 8192;
       Ev_setspecific 1%nat 0%N 8192 0; Ev_object_add 4100 64%N "app.c" "f" 10%N] ∧
  map_to_list (tls_objects (memory r.2)) = [(4100, TlsObject 64%N "app.c" "f" 10%N)] ∧
  trace (memory w')
    = trace (memory r.2)
      ++ [Ev_object_remove 8192; Ev_registry_error 8192; Ev_cleanup 8192] ∧
  heap (memory w') !! 8192 = None ∧
  map_to_list (tls_objects (memory w')) = [(4100, TlsObject 64%N "app.c" "f" 10%N)].
Proof. vm_compute. split_and!; reflexivity. Qed.

(** C6 (evaluation): the slot is declared at address 4096 in the
    diagnostic build (its [key] member is at 4100); thread 1 asks for 64
    bytes, the allocator answers 8192, and the accessor enters the
    buffer's registry entry under 4100.  At the exit of thread 1 the
    runtime runs the destructor that [__init] registered: it requests the
    removal first and calls the release function second, as the log shows.
    But the request is for 8192, where the registry has nothing: when the
    release function is called the buffer's entry is still registered, and
    it is still registered when the buffer is gone from the heap. *)
Theorem C6_release_leaves_the_buffer_entry_registered :
  let ts := Debug.AST_THREADSTORAGE 4096 in
  let r := Debug.__ast_threadstorage_get 1%nat ts 64%N "app.c" "f" 10%N
             (boot [8192] [] []) in
  let before := memory r.2 in
  let between := __ast_threadstorage_object_remove 8192 before in
  let after := memory (thread_exit 1%nat r.2) in
  r.1 = 8192 ∧
  destructor <$> key_table r.2 !! 0%N = Some (Debug.__cleanup ast_free_ptr) ∧
  heap before !! 8192 = Some (replicate 64 x00) ∧
  map_to_list (tls_objects before) = [(4100, TlsObject 64%N "app.c" "f" 10%N)] ∧
  after = call_cleanup ast_free_ptr 8192 between ∧
  trace after
    = trace before ++ [Ev_object_remove 8192; Ev_registry_error 8192; Ev_cleanup 8192] ∧
  heap between !! 8192 = Some (replicate 64 x00) ∧
  map_to_list (tls_objects between) = [(4100, TlsObject 64%N "app.c" "f" 10%N)] ∧
  heap after !! 8192 = None ∧
  map_to_list (tls_objects after) = [(4100, TlsObject 64%N "app.c" "f" 10%N)].
Proof.
  cbv zeta. split; [reflexivity|]. split; [reflexivity|].
  vm_compute. split_and!; reflexivity.
Qed.

(** C7: in the diagnostic build, take a slot declared with a custom
    initializer that fails on whatever it is given, in a process where no
    thread holds a buffer for the slot.  Then every call of every run of
    accessor calls, by whatever threads, returns NULL, the debug registry
    stays as it was and the log records no insertion.  In general, for any
    descriptor, a call that records an insertion has first got a block from
    the allocator and 0 from the custom initializer (if there is one): the
    insertion comes after both in the log. *)
Theorem C7_failing_initializer_never_registers
    (name : ptr) (f : init_fn)
    (c_cleanup : cleanup_fn)
    (cs : list accessor_call) (w : world) :
  let ts := Debug.AST_THREADSTORAGE_CUSTOM name (Some f) c_cleanup in
  (∀ p h, (f p h).2 ≠ 0) ->
  (∀ t, slot_value t ts (after_once ts w) = NULL) ->
  let r := Debug_run ts cs w in
  (length r.1 = length cs ∧ Forall (λ buf, buf = NULL) r.1 ∧
   tls_objects (memory r.2) = tls_objects (memory w) ∧
   count_adds (trace (memory r.2)) = count_adds (trace (memory w))) ∧
  (∀ self ts' n file function line w',
     let w0 := after_once ts' w' in
     let r' := Debug.__ast_threadstorage_get self ts' n file function line w' in
     count_adds (trace (memory r'.2)) ≠ count_adds (trace (memory w0)) ∨
     tls_objects (memory r'.2) ≠ tls_objects (memory w0) ->
     ∃ p init_ev k rc errs,
       p ≠ NULL ∧ r'.1 = p ∧ hd NULL (calloc_answers (memory w0)) = p ∧
       (init_ev = [] ∨ init_ev = [Ev_custom_init p 0]) ∧
       trace (memory r'.2)
         = trace (memory w0) ++ Ev_calloc 1%N n p :: init_ev
           ++ [Ev_setspecific self k p rc;
               Ev_object_add (key ts') n file function line] ++ errs).
Proof.
  intros ts Hfail Hempty. split.
  - revert w Hempty. induction cs as [|c cs IH]; intros w Hempty; simpl; [done|].
    destruct (Debug_get_init_always_fails (c_self c) ts (c_size c) (c_file c)
                (c_function c) (c_line c) w f eq_refl Hfail (Hempty _))
      as (Hr & Hto & Hca & Hkt & Hkv & Hoc).
    destruct (Debug.__ast_threadstorage_get _ _ _ _ _ _ w) as [buf w1].
    simpl in Hr, Hto, Hca, Hkt, Hkv, Hoc.
    assert (Hd1 : once_done ts w1).
    { unfold once_done. rewrite Hoc. apply (once_done_after_once ts w). }
    assert (Hempty1 : ∀ t, slot_value t ts (after_once ts w1) = NULL).
    { intros t. rewrite (after_once_when_done _ _ Hd1), <- (Hempty t).
      by apply slot_value_frame. }
    specialize (IH w1 Hempty1).
    destruct (Debug_run ts cs w1) as [bufs w2]. simpl in *.
    destruct IH as (Hl & Hall & Hto2 & Hca2).
    destruct (Debug_after_once_registry name (Some f) c_cleanup w) as [Ho1 Ho2].
    split_and!.
    + by rewrite Hl.
    + by constructor.
    + by rewrite Hto2, Hto.
    + by rewrite Hca2, Hca.
  - intros self ts' n file function line w'. simpl. intros Hch.
    destruct (Debug_get_registry_cases self ts' n file function line w')
      as [[H1 H2]|H]; [|exact H].
    destruct Hch; done.
Qed.

(** C7 at work: a new process, an initializer that always answers 1, two
    threads and three calls: every call returns NULL. *)
Lemma C7_failing_initializer_never_registers_witness :
  Forall (λ buf, buf = NULL)
    (Debug_run (Debug.AST_THREADSTORAGE_CUSTOM 4096 (Some failing_init) ast_free_ptr)
       [AccessorCall 1%nat 64%N "app.c" "f" 10%N; AccessorCall 2%nat 64%N "app.c" "g" 20%N;
        AccessorCall 1%nat 32%N "app.c" "f" 11%N]
       (boot [8192; 8256; 8192] [] [])).1.
Proof.
  destruct (C7_failing_initializer_never_registers 4096 failing_init ast_free_ptr
              [AccessorCall 1%nat 64%N "app.c" "f" 10%N;
               AccessorCall 2%nat 64%N "app.c" "g" 20%N;
               AccessorCall 1%nat 32%N "app.c" "f" 11%N]
              (boot [8192; 8256; 8192] [] [])) as [(_ & H & _) _].
  - intros p h. discriminate.
  - intros t. reflexivity.
  - exact H.
Defined.

(** C8: a slot declared with [AST_THREADSTORAGE(name)] has no custom
    initializer.  For a thread whose slot is empty, a call with size 64 for
    which the allocator gives a block [p] and the runtime accepts the
    binding returns [p], a block of 64 zero bytes; a second call by the
    same thread, with any size, returns [p] again and changes nothing.  The
    cleanup registered with the key when the slot is first used is a plain
    release: run for the exiting thread it takes [p], and nothing else, off
    the heap. *)
Theorem C8_plain_slot_scenario
    (self : pthread_t) (name : ptr) (s2 : size_t) (w : world) (p : ptr) :
  let ts := Plain.AST_THREADSTORAGE name in
  let w0 := after_once ts w in
  let k := (load_key (key ts) w0).1 in
  slot_value self ts w0 = NULL ->
  hd NULL (calloc_answers (memory w0)) = p -> p ≠ NULL ->
  hd 0 (setspecific_answers w0) = 0 -> is_Some (key_table w0 !! k) ->
  let r1 := Plain.ast_threadstorage_get self ts 64%N w in
  let r2 := Plain.ast_threadstorage_get self ts s2 r1.2 in
  custom_init ts = None ∧
  r1.1 = p ∧
  heap (memory r1.2) !! p = Some (replicate 64 x00) ∧
  r2.1 = p ∧ r2.2 = r1.2 ∧
  (¬ once_done ts w -> hd 0 (key_create_answers w) = 0 ->
     heap (memory (run_destructor self k r1.2)) = delete p (heap (memory r1.2)) ∧
     slot_value self ts (run_destructor self k r1.2) = NULL).
Proof.
  intros ts w0 k Hs Ha Hp Hset [s Hk]. simpl.
  pose proof (once_done_after_once ts w) as Hd. fold w0 in Hd.
  assert (H1 : Plain.ast_threadstorage_get self ts 64%N w =
    (p, World (log (Ev_setspecific self k p 0) (memory (allocated 64%N p w0)))
              (<[k := KeySlot (destructor s) (<[self := p]> (values s))]> (key_table w0))
              (next_key w0) (key_create_answers w0) (tl (setspecific_answers w0))
              (once_controls w0) (key_vars w0))).
  { rewrite (Plain_get_miss _ _ _ _ _ Hs Ha Hp). simpl.
    unfold pthread_setspecific. simpl. fold w0. rewrite Hset. simpl.
    change (default 0%N (key_vars w0 !! (name + offsetof_key))) with k.
    rewrite Hk. reflexivity. }
  rewrite H1. simpl. set (w1 := World _ _ _ _ _ _ _).
  assert (Hd1 : once_done ts w1) by exact Hd.
  assert (Hs1 : slot_value self ts w1 = p).
  { unfold slot_value, pthread_getspecific, load_key. simpl. fold k.
    rewrite lookup_insert_eq. simpl. by rewrite lookup_insert_eq. }
  assert (H2 : Plain.ast_threadstorage_get self ts s2 w1 = (p, w1)).
  { rewrite Plain_get_hit; rewrite (after_once_when_done _ _ Hd1), Hs1; done. }
  rewrite H2. simpl.
  split_and!; try done.
  - by rewrite lookup_insert_eq.
  - intros Hnd Hkc.
    pose proof (Plain_after_once_fresh name None ast_free_ptr w Hnd Hkc : w0 = _) as Hw0.
    assert (Hkey : k = next_key w).
    { subst k. rewrite Hw0. unfold load_key. simpl. by rewrite lookup_insert_eq. }
    assert (Hdt : destructor s = call_cleanup ast_free_ptr).
    { rewrite Hw0, Hkey in Hk. simpl in Hk. rewrite lookup_insert_eq in Hk.
      by injection Hk as <-. }
    unfold run_destructor. subst w1. simpl.
    rewrite lookup_insert_eq. simpl. rewrite lookup_insert_eq. simpl.
    destruct (Z.eqb_spec p NULL) as [|_]; [done|]. simpl. rewrite Hdt.
    split; [done|].
    unfold slot_value, pthread_getspecific, load_key. simpl. fold k.
    rewrite lookup_insert_eq. simpl. by rewrite lookup_delete_eq.
Qed.

(** C8 at work, in a process that has not run anything yet: the slot is
    declared at 4096 and the allocator is going to answer 8192. *)
Lemma C8_plain_slot_scenario_witness :
  (Plain.ast_threadstorage_get 1%nat (Plain.AST_THREADSTORAGE 4096) 64%N
     (boot [8192] [] [])).1 = 8192 ∧
  heap (memory (Plain.ast_threadstorage_get 1%nat (Plain.AST_THREADSTORAGE 4096) 64%N
     (boot [8192] [] [])).2) !! 8192 = Some (replicate 64 x00) ∧
  (Plain.ast_threadstorage_get 1%nat (Plain.AST_THREADSTORAGE 4096) 128%N
     (Plain.ast_threadstorage_get 1%nat (Plain.AST_THREADSTORAGE 4096) 64%N
        (boot [8192] [] [])).2).1 = 8192.
Proof.
  destruct (C8_plain_slot_scenario 1%nat 4096 128%N (boot [8192] [] []) 8192)
    as (_ & H1 & H2 & H3 & _).
  - reflexivity.
  - reflexivity.
  - discriminate.
  - reflexivity.
  - eexists. reflexivity.
  - split_and!; [exact H1 | exact H2 | exact H3].
Defined.

(** C9: on a cache hit the accessor stops right after [pthread_once] and
    the lookup: the process is the one [pthread_once] left (the process
    itself when the control was already used), so no block is requested, no
    custom initializer runs, nothing enters the debug registry and the
    thread's binding is not written; the result is the cached pointer, not
    NULL.  Hence a NULL result can only come from a call that found the
    slot empty.  Both builds. *)
Theorem C9_cache_hit_has_no_effect
    (self : pthread_t) (ts : ast_threadstorage) (n : size_t)
    (file function : string) (line : N) (w : world) :
  let w0 := after_once ts w in
  let r := Plain.ast_threadstorage_get self ts n w in
  let r' := Debug.__ast_threadstorage_get self ts n file function line w in
  (slot_value self ts w0 ≠ NULL ->
     r = (slot_value self ts w0, w0) ∧ r' = (slot_value self ts w0, w0) ∧
     r.1 ≠ NULL ∧ r'.1 ≠ NULL ∧
     (once_done ts w -> r.2 = w ∧ r'.2 = w)) ∧
  (r.1 = NULL -> slot_value self ts w0 = NULL) ∧
  (r'.1 = NULL -> slot_value self ts w0 = NULL).
Proof.
  simpl. split; [|split].
  - intros H. rewrite Plain_get_hit, Debug_get_hit by done. simpl.
    split_and!; try done.
    intros Hd. by rewrite after_once_when_done.
  - intros H. destruct (decide (slot_value self ts (after_once ts w) = NULL)) as [|Hn]; [done|].
    rewrite Plain_get_hit in H by done. done.
  - intros H. destruct (decide (slot_value self ts (after_once ts w) = NULL)) as [|Hn]; [done|].
    rewrite Debug_get_hit in H by done. done.
Qed.

(** C9 at work: a hit in [warm] gives 8192 and leaves [warm] as it is. *)
Lemma C9_cache_hit_has_no_effect_witness :
  Plain.ast_threadstorage_get 1%nat (Plain.AST_THREADSTORAGE 4096) 16%N warm
  = (8192, warm).
Proof.
  destruct (C9_cache_hit_has_no_effect 1%nat (Plain.AST_THREADSTORAGE 4096)
              16%N "app.c" "f" 10%N warm) as (H & _ & _).
  destruct H as (H1 & _ & _ & _ & H2).
  - discriminate.
  - destruct H2 as [H2 _]; [reflexivity|].
    rewrite H1 in H2 |- *. simpl in H2. rewrite H2. reflexivity.
Defined.



(** ** Further properties of the accessor *)

(** *** What the calls into the runtime leave behind *)

Lemma pthread_setspecific_frame self k p w t k' :
  t ≠ self ∨ k' ≠ k ->
  (pthread_getspecific t k' (pthread_setspecific self k p w).2).1
  = (pthread_getspecific t k' w).1.
Proof.
  intros H. unfold pthread_getspecific, pthread_setspecific. simpl.
  destruct (hd 0 (setspecific_answers w) =? 0);
    [destruct (key_table w !! k) as [s|] eqn:E|]; simpl; try done.
  destruct (decide (k' = k)) as [->|Hk].
  - rewrite lookup_insert_eq, E. simpl.
    destruct H as [Ht|Hk]; [|done]. by rewrite lookup_insert_ne.
  - by rewrite lookup_insert_ne.
Qed.

Lemma pthread_setspecific_memory self k p w :
  let r := pthread_setspecific self k p w in
  memory r.2 = log (Ev_setspecific self k p r.1) (memory w) ∧
  key_vars r.2 = key_vars w ∧ once_controls r.2 = once_controls w ∧
  next_key r.2 = next_key w ∧ key_create_answers r.2 = key_create_answers w ∧
  setspecific_answers r.2 = tl (setspecific_answers w).
Proof.
  simpl. unfold pthread_setspecific.
  destruct (hd 0 (setspecific_answers w) =? 0);
    [destruct (key_table w !! k)|]; done.
Qed.

Lemma pthread_setspecific_ok self k p w :
  (pthread_setspecific self k p w).1 = 0 ->
  (pthread_getspecific self k (pthread_setspecific self k p w).2).1 = p.
Proof.
  unfold pthread_getspecific, pthread_setspecific. simpl.
  destruct (Z.eqb_spec (hd 0 (setspecific_answers w)) 0) as [E|E];
    [destruct (key_table w !! k) as [s|]|]; simpl; try done.
  intros _. rewrite lookup_insert_eq. simpl. by rewrite lookup_insert_eq.
Qed.

Lemma pthread_setspecific_failed self k p w :
  (pthread_setspecific self k p w).1 ≠ 0 ->
  key_table (pthread_setspecific self k p w).2 = key_table w.
Proof.
  unfold pthread_setspecific.
  destruct (hd 0 (setspecific_answers w) =? 0);
    [destruct (key_table w !! k) as [s|]|]; simpl; done.
Qed.

(** What the custom initializer leaves in the memory. *)
Lemma call_custom_init_memory c_init buf w :
  let r := call_custom_init c_init buf w in
  heap (memory r.2) = match c_init with
                      | Some f => (f buf (heap (memory w))).1
                      | None => heap (memory w)
                      end ∧
  trace (memory r.2) = trace (memory w) ++
                       match c_init with
                       | Some f => [Ev_custom_init buf (f buf (heap (memory w))).2]
                       | None => []
                       end ∧
  r.1 = match c_init with
        | Some f => negb ((f buf (heap (memory w))).2 =? 0)
        | None => false
        end ∧
  next_key r.2 = next_key w ∧ key_create_answers r.2 = key_create_answers w.
Proof.
  simpl. unfold call_custom_init. destruct c_init as [f|].
  - by destruct (f buf _).
  - simpl. by rewrite app_nil_r.
Qed.

(** *** The four ways a call can go *)

(** A call either hits, or finds the allocator empty, or sees the custom
    initializer fail, or goes all the way to the binding. *)
Lemma Plain_get_outcome self ts n w :
  let w0 := after_once ts w in
  let q := hd NULL (calloc_answers (memory w0)) in
  let i := call_custom_init (custom_init ts) q (allocated n q w0) in
  let r := Plain.ast_threadstorage_get self ts n w in
  (slot_value self ts w0 ≠ NULL ∧ r = (slot_value self ts w0, w0)) ∨
  (slot_value self ts w0 = NULL ∧ q = NULL ∧
     r = (NULL, (ast_calloc 1%N n w0).2)) ∨
  (slot_value self ts w0 = NULL ∧ q ≠ NULL ∧ i.1 = true ∧
     r = (NULL, (free q i.2).2)) ∨
  (slot_value self ts w0 = NULL ∧ q ≠ NULL ∧ i.1 = false ∧
     r = (q, (pthread_setspecific self (load_key (key ts) i.2).1 q i.2).2)).
Proof.
  simpl.
  destruct (decide (slot_value self ts (after_once ts w) = NULL)) as [Hs|Hs];
    [|left; by rewrite Plain_get_hit].
  right.
  destruct (decide (hd NULL (calloc_answers (memory (after_once ts w))) = NULL)) as [Hq|Hq];
    [left; by rewrite Plain_get_alloc_fail|].
  right. rewrite (Plain_get_miss _ _ _ _ _ Hs eq_refl Hq). simpl.
  destruct (call_custom_init _ _ _).1; [left|right]; done.
Qed.

Lemma Debug_get_outcome self ts n file function line w :
  let w0 := after_once ts w in
  let q := hd NULL (calloc_answers (memory w0)) in
  let i := call_custom_init (custom_init ts) q (allocated n q w0) in
  let r := Debug.__ast_threadstorage_get self ts n file function line w in
  (slot_value self ts w0 ≠ NULL ∧ r = (slot_value self ts w0, w0)) ∨
  (slot_value self ts w0 = NULL ∧ q = NULL ∧
     r = (NULL, (ast_calloc 1%N n w0).2)) ∨
  (slot_value self ts w0 = NULL ∧ q ≠ NULL ∧ i.1 = true ∧
     r = (NULL, (free q i.2).2)) ∨
  (slot_value self ts w0 = NULL ∧ q ≠ NULL ∧ i.1 = false ∧
     r = (q, with_memory (__ast_threadstorage_object_add (key ts) n file function line)
               (pthread_setspecific self (load_key (key ts) i.2).1 q i.2).2)).
Proof.
  simpl.
  destruct (decide (slot_value self ts (after_once ts w) = NULL)) as [Hs|Hs];
    [|left; by rewrite Debug_get_hit].
  right.
  destruct (decide (hd NULL (calloc_answers (memory (after_once ts w))) = NULL)) as [Hq|Hq];
    [left; by rewrite Debug_get_alloc_fail|].
  right. rewrite (Debug_get_miss _ _ _ _ _ _ _ _ Hs eq_refl Hq). simpl.
  destruct (call_custom_init _ _ _).1; [left|right]; done.
Qed.

(** The binding every thread has under every key, seen through the steps
    that only work on the memory. *)
Lemma getspecific_with_memory t k f w :
  (pthread_getspecific t k (with_memory f w)).1 = (pthread_getspecific t k w).1.
Proof. reflexivity. Qed.

Lemma getspecific_frame t k w w' :
  key_table w' = key_table w ->
  (pthread_getspecific t k w').1 = (pthread_getspecific t k w).1.
Proof. unfold pthread_getspecific. simpl. by intros ->. Qed.

(** A call leaves alone the bindings of the other threads, and of the
    calling thread under other keys; it does not touch the static storage. *)
Lemma Plain_get_frame self ts n w :
  let w0 := after_once ts w in
  let r := Plain.ast_threadstorage_get self ts n w in
  key_vars r.2 = key_vars w0 ∧ once_controls r.2 = once_controls w0 ∧
  tls_objects (memory r.2) = tls_objects (memory w0) ∧
  count_adds (trace (memory r.2)) = count_adds (trace (memory w0)) ∧
  (∀ t k, t ≠ self ∨ k ≠ (load_key (key ts) w0).1 ->
     (pthread_getspecific t k r.2).1 = (pthread_getspecific t k w0).1).
Proof.
  cbv zeta.
  destruct (Plain_get_outcome self ts n w)
    as [[_ ->]|[(_ & Hq & ->)|[(_ & _ & _ & ->)|(_ & _ & _ & ->)]]].
  - done.
  - rewrite (ast_calloc_null _ _ Hq). simpl.
    rewrite count_adds_app. unfold count_adds. simpl. split_and!; (done || lia).
  - set (q := hd NULL _).
    destruct (call_custom_init_frame (custom_init ts) q (allocated n q (after_once ts w)))
      as (Hkt & Hkv & _ & Hoc & Hto & _).
    destruct (call_custom_init_memory (custom_init ts) q (allocated n q (after_once ts w)))
      as (_ & Htr & _).
    simpl in *. rewrite count_adds_app, Htr, !count_adds_app.
    split_and!; try done.
    + unfold count_adds. destruct (custom_init ts); simpl; lia.
    + intros t k _. by apply getspecific_frame.
  - set (q := hd NULL _).
    destruct (call_custom_init_frame (custom_init ts) q (allocated n q (after_once ts w)))
      as (Hkt & Hkv & _ & Hoc & Hto & _).
    destruct (call_custom_init_memory (custom_init ts) q (allocated n q (after_once ts w)))
      as (_ & Htr & _).
    set (w2 := (call_custom_init _ _ _).2) in *.
    destruct (pthread_setspecific_memory self (load_key (key ts) w2).1 q w2)
      as (Hm & Hkv' & Hoc' & _).
    cbv zeta in *. cbn [fst snd]. rewrite Hm, Hkv', Hoc'.
    split_and!.
    + by rewrite Hkv.
    + by rewrite Hoc.
    + simpl. by rewrite Hto.
    + simpl. rewrite count_adds_app, Htr. simpl. rewrite !count_adds_app.
      unfold count_adds. destruct (custom_init ts); simpl; lia.
    + intros t k H. rewrite pthread_setspecific_frame.
      * by apply getspecific_frame.
      * unfold load_key in *. simpl in *. by rewrite Hkv.
Qed.

(** *** The diagnostic accessor in terms of the plain one *)

Lemma object_add_effect key len file function line m :
  let m' := __ast_threadstorage_object_add key len file function line m in
  heap m' = heap m ∧ calloc_answers m' = calloc_answers m ∧
  (∀ k, k ≠ key -> tls_objects m' !! k = tls_objects m !! k) ∧
  ∃ errs, (errs = [] ∨ errs = [Ev_registry_error key]) ∧
          trace m' = trace m ++ Ev_object_add key len file function line :: errs.
Proof.
  simpl. unfold __ast_threadstorage_object_add.
  destruct (tls_objects m !! key); simpl.
  - split_and!; try done. exists [Ev_registry_error key].
    split; [by right|]. by rewrite <- app_assoc.
  - split_and!; try done.
    + intros k Hk. by rewrite lookup_insert_ne.
    + exists []. split; [by left|done].
Qed.

(** On the same descriptor and process the diagnostic accessor does what
    the plain one does and, when the call went all the way to the binding,
    one insertion into the registry on top. *)
Lemma Debug_get_as_plain self ts n file function line w :
  let r := Plain.ast_threadstorage_get self ts n w in
  let r' := Debug.__ast_threadstorage_get self ts n file function line w in
  r' = r ∨
  (slot_value self ts (after_once ts w) = NULL ∧ r.1 ≠ NULL ∧
   r' = (r.1, with_memory
                (__ast_threadstorage_object_add (key ts) n file function line) r.2)).
Proof.
  cbv zeta. rewrite Plain_get_unfold, Debug_get_unfold. cbv zeta.
  destruct (Z.eqb_spec (slot_value self ts (after_once ts w)) NULL) as [Hs|Hs];
    [|by left].
  destruct (Z.eqb_spec (ast_calloc 1%N n (after_once ts w)).1 NULL) as [Hq|Hq];
    [by left|].
  destruct (call_custom_init _ _ _).1; [by left|].
  right. done.
Qed.

(** Using the control of a slot declared in the plain build leaves the
    registry alone. *)
Lemma Plain_after_once_registry name c_init c_cleanup w :
  let ts := Plain.AST_THREADSTORAGE_CUSTOM name c_init c_cleanup in
  tls_objects (memory (after_once ts w)) = tls_objects (memory w) ∧
  count_adds (trace (memory (after_once ts w))) = count_adds (trace (memory w)).
Proof.
  simpl. unfold after_once, pthread_once. simpl.
  destruct (default false (once_controls w !! name)); [done|].
  unfold Plain.__init, pthread_key_create. unfold_M.
  destruct (hd 0 (key_create_answers w) =? 0); simpl;
    rewrite count_adds_app; simpl; split; (done || lia).
Qed.

(** *** A first touch that goes all the way, and the hits after it *)

Lemma Plain_get_hit_done self ts n w p :
  once_done ts w -> slot_value self ts w = p -> p ≠ NULL ->
  Plain.ast_threadstorage_get self ts n w = (p, w).
Proof.
  intros Hd Hs Hp. rewrite Plain_get_hit; rewrite (after_once_when_done _ _ Hd), Hs; done.
Qed.

Lemma Debug_get_hit_done self ts n file function line w p :
  once_done ts w -> slot_value self ts w = p -> p ≠ NULL ->
  Debug.__ast_threadstorage_get self ts n file function line w = (p, w).
Proof.
  intros Hd Hs Hp. rewrite Debug_get_hit; rewrite (after_once_when_done _ _ Hd), Hs; done.
Qed.

Lemma slot_value_key self ts w w' :
  key_vars w' = key_vars w ->
  slot_value self ts w' = (pthread_getspecific self (load_key (key ts) w).1 w').1.
Proof. unfold slot_value, load_key. simpl. by intros ->. Qed.

(** The process a successful first touch of the plain accessor leaves. *)
Lemma Plain_get_success self ts n w p :
  slot_value self ts (after_once ts w) = NULL ->
  hd NULL (calloc_answers (memory (after_once ts w))) = p -> p ≠ NULL ->
  (call_custom_init (custom_init ts) p (allocated n p (after_once ts w))).1 = false ->
  let w2 := (call_custom_init (custom_init ts) p (allocated n p (after_once ts w))).2 in
  let s := pthread_setspecific self (load_key (key ts) w2).1 p w2 in
  Plain.ast_threadstorage_get self ts n w = (p, s.2) ∧
  once_done ts s.2 ∧
  (s.1 = 0 -> slot_value self ts s.2 = p) ∧
  (s.1 ≠ 0 -> slot_value self ts s.2 = NULL).
Proof.
  intros Hs Ha Hp Hi. cbv zeta.
  rewrite (Plain_get_miss _ _ _ _ _ Hs Ha Hp). cbv zeta. rewrite Hi.
  destruct (call_custom_init_frame (custom_init ts) p (allocated n p (after_once ts w)))
    as (Hkt & Hkv & _ & Hoc & _).
  set (w2 := (call_custom_init _ _ _).2) in *. cbv zeta in *.
  destruct (pthread_setspecific_memory self (load_key (key ts) w2).1 p w2)
    as (_ & Hkv' & Hoc' & _). cbv zeta in *.
  split_and!; [done| | |].
  - unfold once_done. rewrite Hoc', Hoc. apply (once_done_after_once ts w).
  - intros Hrc. rewrite (slot_value_key _ _ w2) by exact Hkv'.
    by apply pthread_setspecific_ok.
  - intros Hrc. rewrite <- Hs. apply slot_value_frame.
    + rewrite (pthread_setspecific_failed _ _ _ _ Hrc). exact Hkt.
    + by rewrite Hkv', Hkv.
Qed.

(** *** What a call adds to the log *)

Lemma count_callocs_app tr tr' :
  count_callocs (tr ++ tr') = (count_callocs tr + count_callocs tr')%nat.
Proof. unfold count_callocs. by rewrite List.filter_app, length_app. Qed.

(** The plain accessor logs no registry call and no key creation of its
    own, and one request to the allocator exactly when the slot is empty. *)
Lemma Plain_get_trace_ext self ts n w :
  let w0 := after_once ts w in
  let r := Plain.ast_threadstorage_get self ts n w in
  ∃ ext, trace (memory r.2) = trace (memory w0) ++ ext ∧
         Forall (λ e, is_registry_event e = false ∧ is_key_create e = false) ext ∧
         count_callocs ext
         = (if decide (slot_value self ts w0 = NULL) then 1 else 0)%nat.
Proof.
  cbv zeta.
  destruct (Plain_get_outcome self ts n w)
    as [[Hs ->]|[(Hs & Hq & ->)|[(Hs & Hq & Hi & ->)|(Hs & Hq & Hi & ->)]]];
    cbn [snd]; destruct (decide (slot_value self ts (after_once ts w) = NULL)); try done.
  - exists []. by rewrite app_nil_r.
  - rewrite (ast_calloc_null _ _ Hq). simpl.
    exists [Ev_calloc 1%N n NULL]. split_and!; [done| |done]. by repeat constructor.
  - set (q := hd NULL _) in *.
    destruct (call_custom_init_memory (custom_init ts) q (allocated n q (after_once ts w)))
      as (_ & Htr & _). cbv zeta in Htr.
    unfold free, in_memory, free_mem. cbn [snd memory with_memory log trace with_heap].
    rewrite Htr. cbn [allocated memory with_memory trace]. rewrite <- !app_assoc.
    eexists. split; [reflexivity|].
    destruct (custom_init ts); simpl; split; by repeat constructor.
  - set (q := hd NULL _) in *.
    destruct (call_custom_init_memory (custom_init ts) q (allocated n q (after_once ts w)))
      as (_ & Htr & _). cbv zeta in Htr.
    set (w2 := (call_custom_init _ _ _).2) in *.
    destruct (pthread_setspecific_memory self (load_key (key ts) w2).1 q w2) as (Hm & _).
    cbv zeta in Hm. rewrite Hm. cbn [log trace]. rewrite Htr.
    cbn [allocated memory with_memory trace]. rewrite <- !app_assoc.
    eexists. split; [reflexivity|].
    destruct (custom_init ts); simpl; split; by repeat constructor.
Qed.

(** The diagnostic accessor logs no key creation of its own, its
    insertions are under the address of the [key] member, and it leaves
    the registry entries under every other key alone. *)
Lemma Debug_get_trace_ext self ts n file function line w :
  let w0 := after_once ts w in
  let r := Debug.__ast_threadstorage_get self ts n file function line w in
  (∃ ext, trace (memory r.2) = trace (memory w0) ++ ext ∧
          adds_keyed_by (key ts) ext ∧ Forall (λ e, is_key_create e = false) ext) ∧
  (∀ k, k ≠ key ts -> tls_objects (memory r.2) !! k = tls_objects (memory w0) !! k) ∧
  key_vars r.2 = key_vars w0 ∧ once_controls r.2 = once_controls w0.
Proof.
  cbv zeta.
  destruct (Plain_get_trace_ext self ts n w) as (ext & Ht & Hall & _).
  destruct (Plain_get_frame self ts n w) as (Hkv & Hoc & Hto & _).
  cbv zeta in *.
  assert (Hkeyed : adds_keyed_by (key ts) ext ∧ Forall (λ e, is_key_create e = false) ext).
  { unfold adds_keyed_by. split; eapply Forall_impl; try exact Hall.
    - intros e [He _]. by destruct e.
    - by intros e [_ He]. }
  destruct (Debug_get_as_plain self ts n file function line w) as [->|(_ & _ & ->)].
  - split_and!; try done.
    + exists ext. by destruct Hkeyed.
    + intros k _. by rewrite Hto.
  - cbn [snd memory with_memory key_vars once_controls].
    destruct (object_add_effect (key ts) n file function line
                (memory (Plain.ast_threadstorage_get self ts n w).2))
      as (_ & _ & Hk & errs & He & Ht').
    split_and!; try done.
    + exists (ext ++ Ev_object_add (key ts) n file function line :: errs).
      rewrite Ht', Ht, <- app_assoc. split; [done|].
      destruct Hkeyed as [H1 H2]. unfold adds_keyed_by in *.
      split; apply Forall_app; (split; [done|]);
        destruct He as [-> | ->]; by repeat constructor.
    + intros k Hne. by rewrite Hk, Hto.
Qed.

Lemma once_done_dec ts w : once_done ts w ∨ ¬ once_done ts w.
Proof. unfold once_done. destruct (default false _); [by left | by right]. Qed.

(** What [pthread_once] adds to the log for a slot declared with a macro:
    nothing when the control was used, one key creation when it was not. *)
Lemma Plain_after_once_trace name c_init c_cleanup w :
  let ts := Plain.AST_THREADSTORAGE_CUSTOM name c_init c_cleanup in
  tls_objects (memory (after_once ts w)) = tls_objects (memory w) ∧
  ((once_done ts w ∧ after_once ts w = w) ∨
   (¬ once_done ts w ∧
    ∃ rc, trace (memory (after_once ts w))
          = trace (memory w) ++ [Ev_key_create (key ts) rc])).
Proof.
  cbv zeta.
  destruct (once_done_dec (Plain.AST_THREADSTORAGE_CUSTOM name c_init c_cleanup) w)
    as [Hd|Hd].
  - rewrite (after_once_when_done _ _ Hd). split; [done|]. by left.
  - split; [apply Plain_after_once_registry|]. right. split; [done|].
    unfold once_done in Hd. unfold after_once, pthread_once. simpl in *.
    destruct (default false (once_controls w !! name)); [done|].
    unfold Plain.__init, pthread_key_create. unfold_M.
    destruct (hd 0 (key_create_answers w) =? 0); simpl; eauto.
Qed.

Lemma Debug_after_once_trace name c_init c_cleanup w :
  let ts := Debug.AST_THREADSTORAGE_CUSTOM name c_init c_cleanup in
  tls_objects (memory (after_once ts w)) = tls_objects (memory w) ∧
  ((once_done ts w ∧ after_once ts w = w) ∨
   (¬ once_done ts w ∧
    ∃ rc, trace (memory (after_once ts w))
          = trace (memory w) ++ [Ev_key_create (key ts) rc])).
Proof.
  cbv zeta.
  destruct (once_done_dec (Debug.AST_THREADSTORAGE_CUSTOM name c_init c_cleanup) w)
    as [Hd|Hd].
  - rewrite (after_once_when_done _ _ Hd). split; [done|]. by left.
  - split; [apply Debug_after_once_registry|]. right. split; [done|].
    unfold once_done in Hd. unfold after_once, pthread_once. simpl in *.
    destruct (default false (once_controls w !! name)); [done|].
    unfold Debug.__init, pthread_key_create. unfold_M.
    destruct (hd 0 (key_create_answers w) =? 0); simpl; eauto.
Qed.

(** *** Runs of calls *)

(** Once the control of a descriptor is used, a run of plain calls logs
    no registry call and no key creation, and leaves the registry as it
    is. *)
Lemma Plain_run_when_done ts cs w :
  once_done ts w ->
  let r := Plain_run ts cs w in
  length r.1 = length cs ∧ once_done ts r.2 ∧
  tls_objects (memory r.2) = tls_objects (memory w) ∧
  ∃ ext, trace (memory r.2) = trace (memory w) ++ ext ∧
         Forall (λ e, is_registry_event e = false ∧ is_key_create e = false) ext.
Proof.
  revert w. induction cs as [|c cs IH]; intros w Hd; simpl.
  { split_and!; try done. exists []. by rewrite app_nil_r. }
  destruct (Plain_get_trace_ext c.1 ts c.2 w) as (ext & Ht & Hall & _).
  destruct (Plain_get_frame c.1 ts c.2 w) as (_ & Hoc & Hto & _).
  rewrite (after_once_when_done _ _ Hd) in Ht, Hoc, Hto.
  destruct (Plain.ast_threadstorage_get c.1 ts c.2 w) as [buf w1].
  cbn [fst snd] in *.
  assert (Hd1 : once_done ts w1) by (unfold once_done; by rewrite Hoc).
  destruct (IH w1 Hd1) as (Hl & Hd2 & Hto2 & ext2 & Ht2 & Hall2).
  destruct (Plain_run ts cs w1) as [bufs w2]. cbn [fst snd] in *.
  split_and!; try done.
  - simpl. by rewrite Hl.
  - by rewrite Hto2.
  - exists (ext ++ ext2). rewrite Ht2, Ht, <- app_assoc. split; [done|].
    by apply Forall_app.
Qed.

Lemma Debug_run_when_done ts cs w :
  once_done ts w ->
  let r := Debug_run ts cs w in
  length r.1 = length cs ∧ once_done ts r.2 ∧
  (∀ k, k ≠ key ts -> tls_objects (memory r.2) !! k = tls_objects (memory w) !! k) ∧
  ∃ ext, trace (memory r.2) = trace (memory w) ++ ext ∧
         adds_keyed_by (key ts) ext ∧ Forall (λ e, is_key_create e = false) ext.
Proof.
  revert w. induction cs as [|c cs IH]; intros w Hd; simpl.
  { split_and!; try done. exists []. rewrite app_nil_r.
    split_and!; [done|constructor|constructor]. }
  destruct (Debug_get_trace_ext (c_self c) ts (c_size c) (c_file c) (c_function c)
              (c_line c) w) as ((ext & Ht & Hk & Hc) & Hto & _ & Hoc).
  rewrite (after_once_when_done _ _ Hd) in Ht, Hoc, Hto.
  destruct (Debug.__ast_threadstorage_get _ _ _ _ _ _ w) as [buf w1].
  cbn [fst snd] in *.
  assert (Hd1 : once_done ts w1) by (unfold once_done; by rewrite Hoc).
  destruct (IH w1 Hd1) as (Hl & Hd2 & Hto2 & ext2 & Ht2 & Hk2 & Hc2).
  destruct (Debug_run ts cs w1) as [bufs w2]. cbn [fst snd] in *.
  split_and!; try done.
  - simpl. by rewrite Hl.
  - intros k Hne. by rewrite Hto2, Hto.
  - exists (ext ++ ext2). rewrite Ht2, Ht, <- app_assoc. split; [done|].
    unfold adds_keyed_by in *. split; by apply Forall_app.
Qed.

Lemma count_key_creates_none ext :
  Forall (λ e, is_key_create e = false) ext -> count_key_creates ext = 0%nat.
Proof.
  unfold count_key_creates. induction 1 as [|e ext He _ IH]; simpl; [done|].
  by rewrite He.
Qed.

(** Hits of one thread, one after the other. *)
Lemma Plain_run_hits self ts sizes w p :
  once_done ts w -> slot_value self ts w = p -> p ≠ NULL ->
  Plain_run ts (map (pair self) sizes) w = (replicate (length sizes) p, w).
Proof.
  intros Hd Hs Hp. induction sizes as [|m sizes IH]; simpl; [done|].
  rewrite (Plain_get_hit_done _ _ _ _ _ Hd Hs Hp). by rewrite IH.
Qed.

(** *** The first use of a slot, down to the key table *)

(** The binding of a fresh key: the process a first touch leaves when the
    runtime has just created the key [k] with destructor [dtor]. *)
Lemma first_binding self k dtor p w2 kt :
  key_table w2 = <[k := KeySlot dtor ∅]> kt ->
  hd 0 (setspecific_answers w2) = 0 ->
  let s := pthread_setspecific self k p w2 in
  s.1 = 0 ∧
  key_table s.2 = <[k := KeySlot dtor (<[self := p]> ∅)]> (key_table w2) ∧
  memory s.2 = log (Ev_setspecific self k p 0) (memory w2).
Proof.
  intros Hkt Hset. cbv zeta. unfold pthread_setspecific.
  rewrite Hset, Hkt, lookup_insert_eq. simpl. done.
Qed.

(** What the runtime does at thread exit for a key under which the thread
    holds [p]: the destructor gets [p], once. *)
Lemma run_destructor_bound self k dtor p w kt :
  key_table w = <[k := KeySlot dtor (<[self := p]> ∅)]> kt -> p ≠ NULL ->
  let w' := run_destructor self k w in
  memory w' = dtor p (memory w) ∧
  key_table w' = <[k := KeySlot dtor ∅]> (key_table w) ∧
  key_vars w' = key_vars w ∧
  run_destructor self k w' = w' ∧
  (∀ t, t ≠ self -> run_destructor t k w = w).
Proof.
  intros Hkt Hp. cbv zeta. unfold run_destructor.
  rewrite Hkt, lookup_insert_eq. simpl. rewrite lookup_insert_eq. simpl.
  destruct (Z.eqb_spec p NULL) as [|_]; [done|]. simpl.
  rewrite delete_insert_eq, delete_empty, lookup_insert_eq. simpl.
  rewrite lookup_empty. simpl.
  split_and!; try done.
  intros t Ht. by rewrite lookup_insert_ne, lookup_empty.
Qed.

(** ** Further properties, stated *)

(** X1: a call of the accessor by thread [self] on a slot changes no
    binding but the one of [self] under the slot's key: what any other
    thread has stored under any key, and what [self] has stored under any
    other key, is the same after the call as it was after [pthread_once].
    Both builds. *)
Theorem X1_other_bindings_untouched
    (self : pthread_t) (ts : ast_threadstorage) (n : size_t)
    (file function : string) (line : N) (w : world)
    (t : pthread_t) (k : pthread_key_t) :
  t ≠ self ∨ k ≠ (load_key (key ts) (after_once ts w)).1 ->
  let w0 := after_once ts w in
  let r := Plain.ast_threadstorage_get self ts n w in
  let r' := Debug.__ast_threadstorage_get self ts n file function line w in
  (pthread_getspecific t k r.2).1 = (pthread_getspecific t k w0).1 ∧
  (pthread_getspecific t k r'.2).1 = (pthread_getspecific t k w0).1.
Proof.
  intros H. cbv zeta.
  destruct (Plain_get_frame self ts n w) as (_ & _ & _ & _ & Hf).
  specialize (Hf t k H). split; [exact Hf|].
  destruct (Debug_get_as_plain self ts n file function line w) as [->|(_ & _ & ->)];
    [exact Hf|].
  cbn [snd]. by rewrite getspecific_with_memory.
Qed.

(** X1 at work: in [warm_two] thread 1 holds 8192 under key 0; thread 2
    then gets its own buffer for the same slot, and thread 1 still holds
    8192. *)
Lemma X1_other_bindings_untouched_witness :
  (pthread_getspecific 1%nat 0%N
     (Plain.ast_threadstorage_get 2%nat (Plain.AST_THREADSTORAGE 4096) 64%N warm_two).2).1
  = 8192.
Proof.
  destruct (X1_other_bindings_untouched 2%nat (Plain.AST_THREADSTORAGE 4096) 64%N
              "app.c" "f" 10%N warm_two 1%nat 0%N) as [H _].
  - left. discriminate.
  - rewrite H. reflexivity.
Defined.

(** X2: the accessor returns NULL exactly when the thread's slot was empty
    and either the allocator had no block or the custom initializer
    reported failure on the new block.  Both builds. *)
Theorem X2_null_exactly_on_failed_first_touch
    (self : pthread_t) (ts : ast_threadstorage) (n : size_t)
    (file function : string) (line : N) (w : world) :
  let w0 := after_once ts w in
  let q := hd NULL (calloc_answers (memory w0)) in
  let failed :=
    slot_value self ts w0 = NULL ∧
    (q = NULL ∨ (call_custom_init (custom_init ts) q (allocated n q w0)).1 = true) in
  ((Plain.ast_threadstorage_get self ts n w).1 = NULL ↔ failed) ∧
  ((Debug.__ast_threadstorage_get self ts n file function line w).1 = NULL ↔ failed).
Proof.
  cbv zeta.
  assert (HP : (Plain.ast_threadstorage_get self ts n w).1 = NULL ↔
    slot_value self ts (after_once ts w) = NULL ∧
    (hd NULL (calloc_answers (memory (after_once ts w))) = NULL ∨
     (call_custom_init (custom_init ts) (hd NULL (calloc_answers (memory (after_once ts w))))
        (allocated n (hd NULL (calloc_answers (memory (after_once ts w))))
           (after_once ts w))).1 = true)).
  { destruct (Plain_get_outcome self ts n w)
      as [[Hs ->]|[(Hs & Hq & ->)|[(Hs & Hq & Hi & ->)|(Hs & Hq & Hi & ->)]]];
      cbn [fst]; split; try tauto.
    - intros [_ [?|Hi']]; [done|]. rewrite Hi in Hi'. done. }
  split; [exact HP|].
  rewrite <- HP.
  destruct (Debug_get_as_plain self ts n file function line w) as [->|(_ & Hn & ->)];
    [done|]. cbn [fst]. done.
Qed.

(** X3: on the same descriptor and process the two builds return the
    same pointer and leave the same heap, allocator answers, key table and
    static storage; the log of the diagnostic build is the log of the plain
    build, followed, on a call that returned a new block, by one insertion
    under the address of the [key] member (and the registry's error report,
    if any). *)
Theorem X3_builds_agree_up_to_the_registry
    (self : pthread_t) (ts : ast_threadstorage) (n : size_t)
    (file function : string) (line : N) (w : world) :
  let r := Plain.ast_threadstorage_get self ts n w in
  let r' := Debug.__ast_threadstorage_get self ts n file function line w in
  r'.1 = r.1 ∧
  heap (memory r'.2) = heap (memory r.2) ∧
  calloc_answers (memory r'.2) = calloc_answers (memory r.2) ∧
  key_table r'.2 = key_table r.2 ∧ key_vars r'.2 = key_vars r.2 ∧
  once_controls r'.2 = once_controls r.2 ∧
  setspecific_answers r'.2 = setspecific_answers r.2 ∧
  ∃ ext, trace (memory r'.2) = trace (memory r.2) ++ ext ∧
         (ext = [] ∨
          r.1 ≠ NULL ∧ slot_value self ts (after_once ts w) = NULL ∧
          ∃ errs, (errs = [] ∨ errs = [Ev_registry_error (key ts)]) ∧
                  ext = Ev_object_add (key ts) n file function line :: errs).
Proof.
  cbv zeta.
  destruct (Debug_get_as_plain self ts n file function line w) as [->|(Hs & Hn & ->)].
  - split_and!; try done. exists []. split; [by rewrite app_nil_r|by left].
  - cbn [fst snd].
    destruct (object_add_effect (key ts) n file function line
                (memory (Plain.ast_threadstorage_get self ts n w).2))
      as (Hh & Hc & _ & errs & He & Ht).
    split_and!; try done.
    exists (Ev_object_add (key ts) n file function line :: errs).
    split; [exact Ht|]. right. split_and!; try done. by exists errs.
Qed.

(** X4: a first touch that gets a block [p], sees the custom initializer
    (if any) succeed and has its binding accepted by the runtime returns
    [p] and caches it: the thread's slot holds [p] afterwards and every
    later call by that thread, with any size, returns [p] and changes
    nothing.  Both builds. *)
Theorem X4_first_touch_caches_the_block
    (self : pthread_t) (ts : ast_threadstorage) (n n2 : size_t)
    (file function : string) (line : N) (w : world) (p : ptr) :
  slot_value self ts (after_once ts w) = NULL ->
  hd NULL (calloc_answers (memory (after_once ts w))) = p -> p ≠ NULL ->
  (call_custom_init (custom_init ts) p (allocated n p (after_once ts w))).1 = false ->
  let w2 := (call_custom_init (custom_init ts) p (allocated n p (after_once ts w))).2 in
  (pthread_setspecific self (load_key (key ts) w2).1 p w2).1 = 0 ->
  let r := Plain.ast_threadstorage_get self ts n w in
  let r' := Debug.__ast_threadstorage_get self ts n file function line w in
  r.1 = p ∧ slot_value self ts r.2 = p ∧
  Plain.ast_threadstorage_get self ts n2 r.2 = (p, r.2) ∧
  r'.1 = p ∧ slot_value self ts r'.2 = p ∧
  Debug.__ast_threadstorage_get self ts n2 file function line r'.2 = (p, r'.2).
Proof.
  intros Hs Ha Hp Hi w2 Hrc. cbv zeta.
  destruct (Plain_get_success self ts n w p Hs Ha Hp Hi) as (Hr & Hd & Hok & _).
  fold w2 in Hr, Hd, Hok. cbv zeta in Hr, Hd, Hok. specialize (Hok Hrc).
  assert (Hr' : Debug.__ast_threadstorage_get self ts n file function line w
                = (p, with_memory
                        (__ast_threadstorage_object_add (key ts) n file function line)
                        (pthread_setspecific self (load_key (key ts) w2).1 p w2).2)).
  { rewrite (Debug_get_miss _ _ _ _ _ _ _ _ Hs Ha Hp). cbv zeta. by rewrite Hi. }
  rewrite Hr, Hr'. cbn [fst snd].
  split_and!; try done.
  - by apply Plain_get_hit_done.
  - by apply Debug_get_hit_done.
Qed.

(** X4 at work: a slot with the sentinel initializer in a new process. *)
Lemma X4_first_touch_caches_the_block_witness :
  (Plain.ast_threadstorage_get 1%nat
     (Plain.AST_THREADSTORAGE_CUSTOM 4096 (Some sentinel_init) ast_free_ptr) 32%N
     (Plain.ast_threadstorage_get 1%nat
        (Plain.AST_THREADSTORAGE_CUSTOM 4096 (Some sentinel_init) ast_free_ptr) 64%N
        (boot [8192] [] [])).2).1 = 8192.
Proof.
  destruct (X4_first_touch_caches_the_block 1%nat
              (Plain.AST_THREADSTORAGE_CUSTOM 4096 (Some sentinel_init) ast_free_ptr)
              64%N 32%N "app.c" "f" 10%N (boot [8192] [] []) 8192)
    as (_ & _ & H & _).
  - reflexivity.
  - reflexivity.
  - discriminate.
  - reflexivity.
  - reflexivity.
  - rewrite H. reflexivity.
Defined.

(** X5: the block a first touch returns holds what the custom initializer
    left: the initializer is run on the heap in which the new block is
    [init_size] zero bytes, and the heap it gives back is the heap after
    the call; without a custom initializer the block is the zero bytes.
    Both builds, and whatever the runtime answers to the binding. *)
Theorem X5_block_is_zeroed_then_initialized
    (self : pthread_t) (ts : ast_threadstorage) (n : size_t)
    (file function : string) (line : N) (w : world) (p : ptr) :
  slot_value self ts (after_once ts w) = NULL ->
  hd NULL (calloc_answers (memory (after_once ts w))) = p -> p ≠ NULL ->
  (call_custom_init (custom_init ts) p (allocated n p (after_once ts w))).1 = false ->
  let zeroed := <[p := replicate (N.to_nat n) x00]> (heap (memory (after_once ts w))) in
  let expected := match custom_init ts with
                  | Some f => (f p zeroed).1
                  | None => zeroed
                  end in
  heap (memory (Plain.ast_threadstorage_get self ts n w).2) = expected ∧
  heap (memory (Debug.__ast_threadstorage_get self ts n file function line w).2) = expected.
Proof.
  intros Hs Ha Hp Hi. cbv zeta.
  assert (HP : heap (memory (Plain.ast_threadstorage_get self ts n w).2)
               = match custom_init ts with
                 | Some f => (f p (<[p := replicate (N.to_nat n) x00]>
                                     (heap (memory (after_once ts w))))).1
                 | None => <[p := replicate (N.to_nat n) x00]>
                             (heap (memory (after_once ts w)))
                 end).
  { rewrite (Plain_get_miss _ _ _ _ _ Hs Ha Hp). cbv zeta. rewrite Hi. cbn [snd].
    set (w2 := (call_custom_init _ _ _).2).
    destruct (pthread_setspecific_memory self (load_key (key ts) w2).1 p w2) as (Hm & _).
    cbv zeta in Hm. rewrite Hm. unfold log. cbn [heap].
    destruct (call_custom_init_memory (custom_init ts) p (allocated n p (after_once ts w)))
      as (Hh & _). exact Hh. }
  split; [exact HP|]. rewrite <- HP.
  destruct (Debug_get_as_plain self ts n file function line w) as [->|(_ & _ & ->)];
    [done|]. cbn [snd].
  by destruct (object_add_effect (key ts) n file function line
                 (memory (Plain.ast_threadstorage_get self ts n w).2)) as (Hh & _).
Qed.

(** X5 at work: the sentinel initializer writes 42 at offset 0 of the 64
    zero bytes at 8192. *)
Lemma X5_block_is_zeroed_then_initialized_witness :
  heap (memory (Plain.ast_threadstorage_get 1%nat
     (Plain.AST_THREADSTORAGE_CUSTOM 4096 (Some sentinel_init) ast_free_ptr) 64%N
     (boot [8192] [] [])).2) !! 8192 = Some (x2a :: replicate 63 x00).
Proof.
  destruct (X5_block_is_zeroed_then_initialized 1%nat
              (Plain.AST_THREADSTORAGE_CUSTOM 4096 (Some sentinel_init) ast_free_ptr)
              64%N "app.c" "f" 10%N (boot [8192] [] []) 8192) as [H _].
  - reflexivity.
  - reflexivity.
  - discriminate.
  - reflexivity.
  - rewrite H. reflexivity.
Defined.

(** X6: when the runtime refuses the binding, the new block is returned
    but it is neither released nor cached: the heap is the one the custom
    initializer left, the refused [pthread_setspecific] is the last call of
    the plain accessor, and the next call by the same thread starts with a
    new request to the allocator.  The diagnostic accessor makes its
    registry insertion all the same. *)
Theorem X6_refused_binding_leaves_the_block_unowned
    (self : pthread_t) (ts : ast_threadstorage) (n n2 : size_t)
    (file function : string) (line : N) (w : world) (p : ptr) :
  slot_value self ts (after_once ts w) = NULL ->
  hd NULL (calloc_answers (memory (after_once ts w))) = p -> p ≠ NULL ->
  (call_custom_init (custom_init ts) p (allocated n p (after_once ts w))).1 = false ->
  let w2 := (call_custom_init (custom_init ts) p (allocated n p (after_once ts w))).2 in
  let k := (load_key (key ts) w2).1 in
  let rc := (pthread_setspecific self k p w2).1 in
  rc ≠ 0 ->
  let r := Plain.ast_threadstorage_get self ts n w in
  let r' := Debug.__ast_threadstorage_get self ts n file function line w in
  r.1 = p ∧
  heap (memory r.2) = heap (memory w2) ∧
  trace (memory r.2) = trace (memory w2) ++ [Ev_setspecific self k p rc] ∧
  (custom_init ts = None -> heap (memory r.2) !! p = Some (replicate (N.to_nat n) x00)) ∧
  (∃ tail, trace (memory (Plain.ast_threadstorage_get self ts n2 r.2).2)
           = trace (memory r.2)
             ++ Ev_calloc 1%N n2 (hd NULL (calloc_answers (memory r.2))) :: tail) ∧
  (∃ errs, trace (memory r'.2)
           = trace (memory r.2) ++ Ev_object_add (key ts) n file function line :: errs).
Proof.
  intros Hs Ha Hp Hi w2 k rc Hrc. cbv zeta.
  destruct (Plain_get_success self ts n w p Hs Ha Hp Hi) as (Hr & Hd & _ & Hfail).
  fold w2 in Hr, Hd, Hfail. cbv zeta in Hr, Hd, Hfail. fold k in Hr, Hd, Hfail.
  specialize (Hfail Hrc).
  destruct (pthread_setspecific_memory self k p w2) as (Hm & _). cbv zeta in Hm.
  fold rc in Hm.
  assert (Hr' : Debug.__ast_threadstorage_get self ts n file function line w
                = (p, with_memory
                        (__ast_threadstorage_object_add (key ts) n file function line)
                        (pthread_setspecific self k p w2).2)).
  { rewrite (Debug_get_miss _ _ _ _ _ _ _ _ Hs Ha Hp). cbv zeta. by rewrite Hi. }
  rewrite Hr, Hr'. cbn [fst snd]. rewrite Hm.
  split_and!; try done.
  - intros Hnone. unfold log. cbn [heap]. subst w2. rewrite Hnone. simpl.
    apply lookup_insert_eq.
  - rewrite <- Hm.
    assert (Hs' : slot_value self ts (after_once ts (pthread_setspecific self k p w2).2)
                  = NULL) by (by rewrite (after_once_when_done _ _ Hd)).
    destruct (Plain_get_miss_trace self ts n2 _ Hs') as (tail & Ht & _).
    rewrite (after_once_when_done _ _ Hd) in Ht. by exists tail.
  - destruct (object_add_effect (key ts) n file function line
                (memory (pthread_setspecific self k p w2).2)) as (_ & _ & _ & errs & _ & Ht).
    exists errs. cbn [memory with_memory]. rewrite Ht, Hm. done.
Qed.

(** X6 at work: the runtime answers 12 to the binding of 8192; the next
    call of thread 1 asks the allocator again and gets 8256. *)
Lemma X6_refused_binding_leaves_the_block_unowned_witness :
  (Plain.ast_threadstorage_get 1%nat (Plain.AST_THREADSTORAGE 4096) 64%N
     (boot [8192; 8256] [] [12])).1 = 8192 ∧
  heap (memory (Plain.ast_threadstorage_get 1%nat (Plain.AST_THREADSTORAGE 4096) 64%N
     (boot [8192; 8256] [] [12])).2) !! 8192 = Some (replicate 64 x00).
Proof.
  destruct (X6_refused_binding_leaves_the_block_unowned 1%nat (Plain.AST_THREADSTORAGE 4096)
              64%N 64%N "app.c" "f" 10%N (boot [8192; 8256] [] [12]) 8192)
    as (H1 & _ & _ & H2 & _).
  - reflexivity.
  - reflexivity.
  - discriminate.
  - reflexivity.
  - discriminate.
  - split; [exact H1|]. by apply H2.
Defined.

(** X7: in the plain build no call of the accessor reaches the debug
    registry: over any run of calls on a slot declared with the macro, by
    whatever threads and with whatever outcome, the log gains no registry
    event and the registry is the one the run started with. *)
Theorem X7_plain_build_never_calls_the_registry
    (name : ptr) (c_init : option init_fn) (c_cleanup : cleanup_fn)
    (cs : list (pthread_t * size_t)) (w : world) :
  let ts := Plain.AST_THREADSTORAGE_CUSTOM name c_init c_cleanup in
  let r := Plain_run ts cs w in
  length r.1 = length cs ∧
  tls_objects (memory r.2) = tls_objects (memory w) ∧
  ∃ ext, trace (memory r.2) = trace (memory w) ++ ext ∧
         Forall (λ e, is_registry_event e = false) ext.
Proof.
  intros ts. destruct cs as [|c cs]; simpl.
  { split_and!; try done. exists []. by rewrite app_nil_r. }
  destruct (Plain_get_trace_ext c.1 ts c.2 w) as (ext & Ht & Hall & _).
  destruct (Plain_get_frame c.1 ts c.2 w) as (_ & Hoc & Hto & _).
  destruct (Plain_after_once_trace name c_init c_cleanup w) as (Hto0 & H0).
  pose proof (once_done_after_once ts w) as Hd0.
  fold ts in Hto0, H0. cbv zeta in *.
  destruct (Plain.ast_threadstorage_get c.1 ts c.2 w) as [buf w1].
  cbn [fst snd] in *.
  assert (Hd1 : once_done ts w1) by (unfold once_done; by rewrite Hoc).
  destruct (Plain_run_when_done ts cs w1 Hd1) as (Hl & _ & Hto2 & ext2 & Ht2 & Hall2).
  destruct (Plain_run ts cs w1) as [bufs w2]. cbn [fst snd] in *.
  assert (Hnr : Forall (λ e, is_registry_event e = false) (ext ++ ext2)).
  { apply Forall_app. split; eapply Forall_impl; eauto; by intros e [? _]. }
  split_and!.
  - simpl. by rewrite Hl.
  - by rewrite Hto2, Hto, Hto0.
  - destruct H0 as [[_ E]|[_ [rc E]]].
    + exists (ext ++ ext2). rewrite Ht2, Ht, E, <- app_assoc. done.
    + exists (Ev_key_create (key ts) rc :: ext ++ ext2).
      rewrite Ht2, Ht, E, <- !app_assoc. split; [done|]. by constructor.
Qed.

(** X8: in the diagnostic build every insertion the accessor makes is
    under the address of the descriptor's [key] member, whichever thread
    calls and whichever block it got: over any run of calls on a slot
    declared with the macro, all insertions in the log carry that key and
    the registry entries under every other key are unchanged. *)
Theorem X8_insertions_are_keyed_by_the_key_member
    (name : ptr) (c_init : option init_fn) (c_cleanup : cleanup_fn)
    (cs : list accessor_call) (w : world) :
  let ts := Debug.AST_THREADSTORAGE_CUSTOM name c_init c_cleanup in
  let r := Debug_run ts cs w in
  (∀ k, k ≠ name + offsetof_key ->
        tls_objects (memory r.2) !! k = tls_objects (memory w) !! k) ∧
  ∃ ext, trace (memory r.2) = trace (memory w) ++ ext ∧
         adds_keyed_by (name + offsetof_key) ext.
Proof.
  intros ts. change (name + offsetof_key) with (key ts).
  destruct cs as [|c cs]; simpl.
  { split; [done|]. exists []. rewrite app_nil_r. split; [done|]. constructor. }
  destruct (Debug_get_trace_ext (c_self c) ts (c_size c) (c_file c) (c_function c)
              (c_line c) w) as ((ext & Ht & Hk & _) & Hto & _ & Hoc).
  destruct (Debug_after_once_trace name c_init c_cleanup w) as (Hto0 & H0).
  pose proof (once_done_after_once ts w) as Hd0.
  fold ts in Hto0, H0. cbv zeta in *.
  destruct (Debug.__ast_threadstorage_get _ _ _ _ _ _ w) as [buf w1].
  cbn [fst snd] in *.
  assert (Hd1 : once_done ts w1) by (unfold once_done; by rewrite Hoc).
  destruct (Debug_run_when_done ts cs w1 Hd1) as (_ & _ & Hto2 & ext2 & Ht2 & Hk2 & _).
  destruct (Debug_run ts cs w1) as [bufs w2]. cbn [fst snd] in *.
  split.
  - intros k Hne. by rewrite Hto2, Hto, Hto0.
  - unfold adds_keyed_by in *.
    destruct H0 as [[_ E]|[_ [rc E]]].
    + exists (ext ++ ext2). rewrite Ht2, Ht, E, <- app_assoc. split; [done|].
      by apply Forall_app.
    + exists (Ev_key_create (key ts) rc :: ext ++ ext2).
      rewrite Ht2, Ht, E, <- !app_assoc. split; [done|].
      constructor; [done|]. by apply Forall_app.
Qed.

(** X8 at work: threads 1 and 2 get the blocks 8192 and 8256 for the slot
    declared at 4096; the registry has no entry under either block. *)
Lemma X8_insertions_are_keyed_by_the_key_member_witness :
  tls_objects (memory (Debug_run (Debug.AST_THREADSTORAGE_CUSTOM 4096 None ast_free_ptr)
     [AccessorCall 1%nat 64%N "app.c" "f" 10%N; AccessorCall 2%nat 64%N "app.c" "g" 20%N]
     (boot [8192; 8256] [] [])).2) !! 8192 = None ∧
  tls_objects (memory (Debug_run (Debug.AST_THREADSTORAGE_CUSTOM 4096 None ast_free_ptr)
     [AccessorCall 1%nat 64%N "app.c" "f" 10%N; AccessorCall 2%nat 64%N "app.c" "g" 20%N]
     (boot [8192; 8256] [] [])).2) !! 8256 = None.
Proof.
  destruct (X8_insertions_are_keyed_by_the_key_member 4096 None ast_free_ptr
     [AccessorCall 1%nat 64%N "app.c" "f" 10%N; AccessorCall 2%nat 64%N "app.c" "g" 20%N]
     (boot [8192; 8256] [] [])) as [H _].
  split; rewrite H; (reflexivity || discriminate).
Defined.

(** X9: over any run of calls on a slot whose control has not been used,
    by whatever threads, [pthread_key_create] is called in the first call
    and in no later one, whether it succeeded or not: a failed key creation
    is not tried again.  Both builds. *)
Theorem X9_key_is_created_by_the_first_call_only
    (name : ptr) (c_init : option init_fn) (c_cleanup : cleanup_fn)
    (cs : list (pthread_t * size_t)) (cs' : list accessor_call) (w : world) :
  ¬ once_done (Plain.AST_THREADSTORAGE_CUSTOM name c_init c_cleanup) w ->
  cs ≠ [] -> cs' ≠ [] ->
  count_key_creates
    (trace (memory (Plain_run (Plain.AST_THREADSTORAGE_CUSTOM name c_init c_cleanup) cs w).2))
  = S (count_key_creates (trace (memory w))) ∧
  count_key_creates
    (trace (memory (Debug_run (Debug.AST_THREADSTORAGE_CUSTOM name c_init c_cleanup) cs' w).2))
  = S (count_key_creates (trace (memory w))).
Proof.
  intros Hd Hcs Hcs'. split.
  - set (ts := Plain.AST_THREADSTORAGE_CUSTOM name c_init c_cleanup) in *.
    destruct cs as [|c cs]; [done|]. simpl.
    destruct (Plain_get_trace_ext c.1 ts c.2 w) as (ext & Ht & Hall & _).
    destruct (Plain_get_frame c.1 ts c.2 w) as (_ & Hoc & _).
    destruct (Plain_after_once_trace name c_init c_cleanup w) as (_ & H0).
    pose proof (once_done_after_once ts w) as Hd0.
    fold ts in H0. cbv zeta in *.
    destruct (Plain.ast_threadstorage_get c.1 ts c.2 w) as [buf w1].
    cbn [fst snd] in *.
    assert (Hd1 : once_done ts w1) by (unfold once_done; by rewrite Hoc).
    destruct (Plain_run_when_done ts cs w1 Hd1) as (_ & _ & _ & ext2 & Ht2 & Hall2).
    destruct (Plain_run ts cs w1) as [bufs w2]. cbn [fst snd] in *.
    destruct H0 as [[Hd' _]|[_ [rc E]]]; [done|].
    rewrite Ht2, Ht, E, !count_key_creates_app.
    rewrite (count_key_creates_none ext), (count_key_creates_none ext2).
    + unfold count_key_creates. simpl. lia.
    + eapply Forall_impl; [exact Hall2|]. by intros e [_ ?].
    + eapply Forall_impl; [exact Hall|]. by intros e [_ ?].
  - by apply key_init_runs_once_in_a_run.
Qed.

(** X9 at work: the runtime has no key to give (answer 11); three calls
    by two threads, one key creation in the log. *)
Lemma X9_key_is_created_by_the_first_call_only_witness :
  count_key_creates
    (trace (memory (Plain_run (Plain.AST_THREADSTORAGE_CUSTOM 4096 None ast_free_ptr)
       [(1%nat, 64%N); (2%nat, 64%N); (1%nat, 64%N)] (boot [8192; 8256; 8320] [11] [])).2))
  = 1%nat.
Proof.
  destruct (X9_key_is_created_by_the_first_call_only 4096 None ast_free_ptr
              [(1%nat, 64%N); (2%nat, 64%N); (1%nat, 64%N)]
              [AccessorCall 1%nat 64%N "app.c" "f" 10%N]
              (boot [8192; 8256; 8320] [11] [])) as [H _].
  - discriminate.
  - discriminate.
  - discriminate.
  - exact H.
Defined.

(** X10: one allocation serves a thread for all its calls.  When the
    first call of a thread gets a block [p], has it initialized and bound,
    every call of a run of calls by that thread, whatever the sizes, returns
    [p], and the run asks the allocator exactly once. *)
Theorem X10_one_allocation_per_thread
    (self : pthread_t) (ts : ast_threadstorage) (n : size_t) (sizes : list size_t)
    (w : world) (p : ptr) :
  slot_value self ts (after_once ts w) = NULL ->
  hd NULL (calloc_answers (memory (after_once ts w))) = p -> p ≠ NULL ->
  (call_custom_init (custom_init ts) p (allocated n p (after_once ts w))).1 = false ->
  let w2 := (call_custom_init (custom_init ts) p (allocated n p (after_once ts w))).2 in
  (pthread_setspecific self (load_key (key ts) w2).1 p w2).1 = 0 ->
  let r := Plain_run ts ((self, n) :: map (pair self) sizes) w in
  r.1 = replicate (S (length sizes)) p ∧
  count_callocs (trace (memory r.2))
  = S (count_callocs (trace (memory (after_once ts w)))).
Proof.
  intros Hs Ha Hp Hi w2 Hrc. cbv zeta.
  destruct (Plain_get_success self ts n w p Hs Ha Hp Hi) as (Hr & Hd & Hok & _).
  fold w2 in Hr, Hd, Hok. cbv zeta in Hr, Hd, Hok. specialize (Hok Hrc).
  destruct (Plain_get_trace_ext self ts n w) as (ext & Ht & _ & Hc).
  cbv zeta in Ht, Hc.
  destruct (decide (slot_value self ts (after_once ts w) = NULL)); [|done].
  simpl. rewrite Hr in Ht |- *. cbn [snd] in Ht.
  rewrite (Plain_run_hits _ _ _ _ _ Hd Hok Hp). cbn [fst snd].
  split; [done|]. rewrite Ht, count_callocs_app, Hc. lia.
Qed.

(** X10 at work: thread 1 asks five times, with five sizes, and the
    allocator is asked once. *)
Lemma X10_one_allocation_per_thread_witness :
  (Plain_run (Plain.AST_THREADSTORAGE 4096)
     [(1%nat, 64%N); (1%nat, 16%N); (1%nat, 64%N); (1%nat, 4096%N); (1%nat, 0%N)]
     (boot [8192; 8256] [] [])).1 = [8192; 8192; 8192; 8192; 8192] ∧
  count_callocs (trace (memory (Plain_run (Plain.AST_THREADSTORAGE 4096)
     [(1%nat, 64%N); (1%nat, 16%N); (1%nat, 64%N); (1%nat, 4096%N); (1%nat, 0%N)]
     (boot [8192; 8256] [] [])).2)) = 1%nat.
Proof.
  destruct (X10_one_allocation_per_thread 1%nat (Plain.AST_THREADSTORAGE 4096) 64%N
              [16%N; 64%N; 4096%N; 0%N] (boot [8192; 8256] [] []) 8192) as [H1 H2].
  - reflexivity.
  - reflexivity.
  - discriminate.
  - reflexivity.
  - reflexivity.
  - split; [exact H1 | exact H2].
Defined.

(** X11: in the plain build the cleanup a slot was declared with is what
    the runtime runs at thread exit.  After the first touch of a fresh slot
    by thread [self] gave it the block [p], the exit of [self] hands [p] to
    [c_cleanup] once: the heap is what [c_cleanup] makes of it, the log
    gains that one call, the slot of [self] is empty again and a second
    pass does nothing; for a thread that never touched the slot nothing is
    run at all. *)
Theorem X11_exit_hands_the_block_to_the_cleanup_once
    (self : pthread_t) (name : ptr) (c_init : option init_fn) (c_cleanup : cleanup_fn)
    (n : size_t) (w : world) (p : ptr) :
  let ts := Plain.AST_THREADSTORAGE_CUSTOM name c_init c_cleanup in
  ¬ once_done ts w -> hd 0 (key_create_answers w) = 0 ->
  hd NULL (calloc_answers (memory w)) = p -> p ≠ NULL ->
  (call_custom_init c_init p (allocated n p (after_once ts w))).1 = false ->
  hd 0 (setspecific_answers w) = 0 ->
  let r := Plain.ast_threadstorage_get self ts n w in
  let k := next_key w in
  let w' := run_destructor self k r.2 in
  r.1 = p ∧
  heap (memory w') = c_cleanup p (heap (memory r.2)) ∧
  trace (memory w') = trace (memory r.2) ++ [Ev_cleanup p] ∧
  tls_objects (memory w') = tls_objects (memory r.2) ∧
  slot_value self ts w' = NULL ∧
  run_destructor self k w' = w' ∧
  (∀ t, t ≠ self -> run_destructor t k r.2 = r.2).
Proof.
  intros ts Hd Hkc Ha Hp Hi Hset. cbv zeta.
  pose proof (Plain_after_once_fresh name c_init c_cleanup w Hd Hkc) as Hw0.
  fold ts in Hw0.
  assert (Hs : slot_value self ts (after_once ts w) = NULL)
    by (by apply Plain_fresh_slot_is_empty).
  assert (Ha0 : hd NULL (calloc_answers (memory (after_once ts w))) = p)
    by (by rewrite Hw0).
  destruct (Plain_get_success self ts n w p Hs Ha0 Hp Hi) as (Hr & _).
  destruct (call_custom_init_frame c_init p (allocated n p (after_once ts w)))
    as (Hkt & Hkv & Hsa & _).
  change (custom_init ts) with c_init in Hr.
  set (w2 := (call_custom_init c_init p (allocated n p (after_once ts w))).2) in *.
  cbv zeta in *.
  assert (Hk : (load_key (key ts) w2).1 = next_key w).
  { unfold load_key. cbn [fst]. rewrite Hkv, Hw0. simpl. by rewrite lookup_insert_eq. }
  rewrite Hk in Hr.
  assert (Hkt2 : key_table w2 = <[next_key w := KeySlot (call_cleanup c_cleanup) ∅]>
                                  (key_table w)) by (by rewrite Hkt, Hw0).
  assert (Hset2 : hd 0 (setspecific_answers w2) = 0) by (by rewrite Hsa, Hw0).
  destruct (first_binding self (next_key w) (call_cleanup c_cleanup) p w2 (key_table w)
              Hkt2 Hset2) as (_ & Hkts & Hms).
  destruct (pthread_setspecific_memory self (next_key w) p w2) as (_ & Hkvs & _).
  cbv zeta in *. rewrite Hr. cbn [fst snd].
  set (w1 := (pthread_setspecific self (next_key w) p w2).2) in *.
  rewrite Hkt2, insert_insert_eq in Hkts.
  destruct (run_destructor_bound self (next_key w) (call_cleanup c_cleanup) p w1
              (key_table w) Hkts Hp) as (Hm & Hkt' & Hkv' & Hidem & Hother).
  cbv zeta in *. rewrite Hm.
  split_and!; try done.
  rewrite (slot_value_key _ _ w2) by (by rewrite Hkv', Hkvs).
  rewrite Hk. unfold pthread_getspecific. cbn [fst]. rewrite Hkt', lookup_insert_eq.
  simpl. by rewrite lookup_empty.
Qed.

(** X11 at work: the plain slot at 4096 in a new process; thread 1 gets
    8192 and exits, which takes 8192 off the heap. *)
Lemma X11_exit_hands_the_block_to_the_cleanup_once_witness :
  heap (memory (run_destructor 1%nat 0%N
    (Plain.ast_threadstorage_get 1%nat
       (Plain.AST_THREADSTORAGE_CUSTOM 4096 None ast_free_ptr) 64%N
       (boot [8192] [] [])).2)) !! 8192 = None.
Proof.
  destruct (X11_exit_hands_the_block_to_the_cleanup_once 1%nat 4096 None ast_free_ptr
              64%N (boot [8192] [] []) 8192) as (_ & H & _).
  - discriminate.
  - reflexivity.
  - reflexivity.
  - discriminate.
  - reflexivity.
  - reflexivity.
  - change (next_key (boot [8192] [] [])) with 0%N in H. rewrite H.
    apply lookup_delete_eq.
Defined.

(** X12: in the diagnostic build the entry a first touch inserts outlives
    the block.  After the first touch of a fresh slot by thread [self] gave
    it the block [p], the registry has the call's entry under the address
    of the [key] member; the exit of [self] asks the registry to remove
    [p], hands [p] to [c_cleanup], and leaves that entry where it is. *)
Theorem X12_exit_leaves_the_entry_of_the_slot
    (self : pthread_t) (name : ptr) (c_init : option init_fn) (c_cleanup : cleanup_fn)
    (n : size_t) (file function : string) (line : N) (w : world) (p : ptr) :
  let ts := Debug.AST_THREADSTORAGE_CUSTOM name c_init c_cleanup in
  ¬ once_done ts w -> hd 0 (key_create_answers w) = 0 ->
  hd NULL (calloc_answers (memory w)) = p -> p ≠ NULL ->
  (call_custom_init c_init p (allocated n p (after_once ts w))).1 = false ->
  hd 0 (setspecific_answers w) = 0 ->
  tls_objects (memory w) !! (name + offsetof_key) = None ->
  p ≠ name + offsetof_key ->
  let r := Debug.__ast_threadstorage_get self ts n file function line w in
  let w' := run_destructor self (next_key w) r.2 in
  r.1 = p ∧
  tls_objects (memory r.2) !! (name + offsetof_key)
    = Some (TlsObject n file function line) ∧
  heap (memory w') = c_cleanup p (heap (memory r.2)) ∧
  (∃ errs, trace (memory w')
           = trace (memory r.2) ++ Ev_object_remove p :: errs ++ [Ev_cleanup p]) ∧
  tls_objects (memory w') !! (name + offsetof_key)
    = Some (TlsObject n file function line).
Proof.
  intros ts Hd Hkc Ha Hp Hi Hset Hnone Hne. cbv zeta.
  pose proof (Debug_after_once_fresh name c_init c_cleanup w Hd Hkc) as Hw0.
  fold ts in Hw0.
  assert (Hs : slot_value self ts (after_once ts w) = NULL)
    by (by apply Debug_fresh_slot_is_empty).
  assert (Ha0 : hd NULL (calloc_answers (memory (after_once ts w))) = p)
    by (by rewrite Hw0).
  assert (Hnone0 : tls_objects (memory (after_once ts w)) !! key ts = None)
    by (by rewrite Hw0).
  destruct (Debug_get_inserts_under_key_address self ts n file function line w p
              Hs Ha0 Hp Hi Hnone0) as (Hr1 & Hto).
  pose proof (Debug_get_miss self ts n file function line w p Hs Ha0 Hp) as Hr.
  cbv zeta in Hr, Hr1, Hto. change (custom_init ts) with c_init in Hr.
  rewrite Hi in Hr.
  destruct (call_custom_init_frame c_init p (allocated n p (after_once ts w)))
    as (Hkt & Hkv & Hsa & _).
  set (w2 := (call_custom_init c_init p (allocated n p (after_once ts w))).2) in *.
  cbv zeta in *.
  assert (Hk : (load_key (key ts) w2).1 = next_key w).
  { unfold load_key. cbn [fst]. rewrite Hkv, Hw0. simpl. by rewrite lookup_insert_eq. }
  rewrite Hk in Hr.
  assert (Hkt2 : key_table w2 = <[next_key w := KeySlot (Debug.__cleanup c_cleanup) ∅]>
                                  (key_table w)) by (by rewrite Hkt, Hw0).
  assert (Hset2 : hd 0 (setspecific_answers w2) = 0) by (by rewrite Hsa, Hw0).
  destruct (first_binding self (next_key w) (Debug.__cleanup c_cleanup) p w2 (key_table w)
              Hkt2 Hset2) as (_ & Hkts & _).
  cbv zeta in Hkts. rewrite Hkt2, insert_insert_eq in Hkts.
  assert (Hentry : tls_objects
            (memory (Debug.__ast_threadstorage_get self ts n file function line w).2)
            !! (name + offsetof_key) = Some (TlsObject n file function line)).
  { rewrite Hto. apply lookup_insert_eq. }
  rewrite Hr in Hentry |- *. cbn [fst snd] in Hentry |- *.
  set (w1 := with_memory _ _) in *.
  assert (Hkt1 : key_table w1 = <[next_key w := KeySlot (Debug.__cleanup c_cleanup)
                                                  (<[self := p]> ∅)]> (key_table w))
    by exact Hkts.
  destruct (run_destructor_bound self (next_key w) (Debug.__cleanup c_cleanup) p w1
              (key_table w) Hkt1 Hp) as (Hm & _).
  cbv zeta in Hm. rewrite Hm.
  split_and!; try done.
  - unfold Debug.__cleanup, call_cleanup, __ast_threadstorage_object_remove.
    by destruct (tls_objects (memory w1) !! p).
  - unfold Debug.__cleanup, call_cleanup, __ast_threadstorage_object_remove.
    destruct (tls_objects (memory w1) !! p); simpl.
    + exists []. by rewrite <- app_assoc.
    + exists [Ev_registry_error p]. by rewrite <- !app_assoc.
  - rewrite Debug_cleanup_keeps_other_entries by done. exact Hentry.
Qed.

(** X12 at work: the slot at 4096 (key member at 4100) in a new process;
    thread 1 gets 8192, exits, and the entry under 4100 is still there. *)
Lemma X12_exit_leaves_the_entry_of_the_slot_witness :
  tls_objects (memory (run_destructor 1%nat 0%N
    (Debug.__ast_threadstorage_get 1%nat
       (Debug.AST_THREADSTORAGE_CUSTOM 4096 None ast_free_ptr) 64%N "app.c" "f" 10%N
       (boot [8192] [] [])).2)) !! 4100
  = Some (TlsObject 64%N "app.c" "f" 10%N).
Proof.
  destruct (X12_exit_leaves_the_entry_of_the_slot 1%nat 4096 None ast_free_ptr
              64%N "app.c" "f" 10%N (boot [8192] [] []) 8192) as (_ & _ & _ & _ & H).
  - discriminate.
  - reflexivity.
  - reflexivity.
  - discriminate.
  - reflexivity.
  - reflexivity.
  - reflexivity.
  - discriminate.
  - exact H.
Defined.

(** X13: threads do not get each other's block.  After thread [a] has got
    and bound the block [p], the first call of another thread [b] on the
    same slot does not return what [a] has cached: it asks the allocator,
    and its result is the allocator's new answer or NULL.  After the call
    of [b] the slot of [a] still holds [p]. *)
Theorem X13_threads_do_not_share_a_block
    (a b : pthread_t) (ts : ast_threadstorage) (na nb : size_t) (w : world) (p : ptr) :
  a ≠ b ->
  slot_value a ts (after_once ts w) = NULL ->
  slot_value b ts (after_once ts w) = NULL ->
  hd NULL (calloc_answers (memory (after_once ts w))) = p -> p ≠ NULL ->
  (call_custom_init (custom_init ts) p (allocated na p (after_once ts w))).1 = false ->
  let w2 := (call_custom_init (custom_init ts) p (allocated na p (after_once ts w))).2 in
  (pthread_setspecific a (load_key (key ts) w2).1 p w2).1 = 0 ->
  let ra := Plain.ast_threadstorage_get a ts na w in
  let rb := Plain.ast_threadstorage_get b ts nb ra.2 in
  let q := hd NULL (calloc_answers (memory ra.2)) in
  ra.1 = p ∧
  (rb.1 = q ∨ rb.1 = NULL) ∧
  (∃ tail, trace (memory rb.2) = trace (memory ra.2) ++ Ev_calloc 1%N nb q :: tail) ∧
  slot_value a ts rb.2 = p.
Proof.
  intros Hab Hsa Hsb Ha Hp Hi w2 Hrc. cbv zeta.
  destruct (Plain_get_success a ts na w p Hsa Ha Hp Hi) as (Hr & Hd & Hok & _).
  fold w2 in Hr, Hd, Hok. cbv zeta in Hr, Hd, Hok. specialize (Hok Hrc).
  destruct (Plain_get_frame a ts na w) as (Hkv & _ & _ & _ & Hf).
  cbv zeta in Hkv, Hf. rewrite Hr in Hkv, Hf |- *. cbn [fst snd] in *.
  set (wa := (pthread_setspecific a (load_key (key ts) w2).1 p w2).2) in *.
  assert (Hsb' : slot_value b ts (after_once ts wa) = NULL).
  { rewrite (after_once_when_done _ _ Hd).
    rewrite (slot_value_key _ _ (after_once ts w)) by exact Hkv.
    rewrite Hf; [exact Hsb|]. left. by intros ->. }
  destruct (Plain_get_miss_trace b ts nb wa Hsb') as (tail & Ht & _).
  destruct (Plain_get_frame b ts nb wa) as (Hkvb & _ & _ & _ & Hfb).
  rewrite (after_once_when_done _ _ Hd) in Ht, Hkvb, Hfb, Hsb'.
  cbv zeta in *.
  split_and!; try done.
  - destruct (Plain_get_outcome b ts nb wa)
      as [[Hs _]|[(_ & _ & ->)|[(_ & _ & _ & ->)|(_ & _ & _ & ->)]]];
      rewrite ?(after_once_when_done _ _ Hd) in *; cbn [fst]; auto.
    done.
  - by exists tail.
  - rewrite (slot_value_key _ _ wa) by exact Hkvb.
    rewrite Hfb; [exact Hok|]. by left.
Qed.

(** X13 at work: in [warm_two] thread 1 holds 8192; thread 2 gets 8256
    and thread 1 still holds 8192. *)
Lemma X13_threads_do_not_share_a_block_witness :
  (Plain.ast_threadstorage_get 2%nat (Plain.AST_THREADSTORAGE 4096) 64%N warm_two).1
  ≠ 8192 ∧
  slot_value 1%nat (Plain.AST_THREADSTORAGE 4096)
    (Plain.ast_threadstorage_get 2%nat (Plain.AST_THREADSTORAGE 4096) 64%N warm_two).2
  = 8192.
Proof.
  destruct (X13_threads_do_not_share_a_block 1%nat 2%nat (Plain.AST_THREADSTORAGE 4096)
              64%N 64%N (boot [8192; 8256] [] []) 8192) as (_ & H1 & _ & H2).
  - discriminate.
  - reflexivity.
  - reflexivity.
  - reflexivity.
  - discriminate.
  - reflexivity.
  - reflexivity.
  - split; [|exact H2].
    destruct H1 as [H1|H1]; unfold warm_two; rewrite H1; discriminate.
Defined.
